(** * SurveyJS question model: dynamic matrix rows and question validation

    A shallow embedding of [QuestionMatrixDynamicModel] (row count, row
    generation, row removal over a backing array) and of [Question] (value
    setter with its re-entrancy flag, error check, [enableIf] condition). *)

From Stdlib Require Import ZArith Lia Bool.
From stdpp Require Import base gmap list strings pretty.

Open Scope Z_scope.

(** ** JavaScript arrays, as far as the two classes use them *)

Module JsArray.
Section Array.
Context {A : Type}.

(** The first index touched by [splice(start, ...)]: a negative [start]
    counts from the end, and the result is clipped to [0 .. length]. *)
Definition actualStart (start : Z) (a : list A) : Z :=
  let len := Z.of_nat (length a) in
  if start <? 0 then Z.max (len + start) 0 else Z.min start len.

(** [a.splice(start)]: every element from [actualStart] on is removed; the
    array that is left is what the caller keeps using. *)
Definition splice_from (start : Z) (a : list A) : list A :=
  take (Z.to_nat (actualStart start a)) a.

(** [a.splice(start, deleteCount)]: the array after the removal. *)
Definition splice (start deleteCount : Z) (a : list A) : list A :=
  let len := Z.of_nat (length a) in
  let s := actualStart start a in
  let d := Z.min (Z.max deleteCount 0) (len - s) in
  take (Z.to_nat s) a ++ drop (Z.to_nat (s + d)) a.

(** [a.push(x)] *)
Definition push (x : A) (a : list A) : list A := a ++ [x].

(** [a.length] *)
Definition len (a : list A) : Z := Z.of_nat (length a).
End Array.
End JsArray.

(** ** The dynamic matrix question *)

Module MatrixDynamic.
Import JsArray.

(** A cell of a row object. *)
Inductive Cell : Type :=
  | CNum (n : Z)
  | CStr (s : string).

(** One entry of the backing array: a JavaScript object, keys to cells.
    [{}] is the empty map. *)
Abbreviation RowValue := (gmap string Cell).

(** [MatrixDynamicRowModel]: the stamped [index] and the row's value, which
    is [null] ([None]) when [getRowValueByIndex] finds no entry.
    Modelled from the spec: the base class [MatrixDropdownRowModelBase] is
    not in the sources; it keeps the value handed to the constructor as the
    row's view of its slice of the backing value. *)
Record MatrixDynamicRowModel : Type := mkRow {
  index : Z;
  value : option RowValue
}.

Definition rowName (r : MatrixDynamicRowModel) : string :=
  String.append "row" (pretty (index r)).

(** The fields of [QuestionMatrixDynamicModel] that its methods read and
    write. [questionValue] is the slot behind the inherited [value]
    accessor ([None] for [null]/[undefined], [Some a] for the array [a]);
    [valueChangedCount] counts the value-changed notifications sent by the
    inherited setter. *)
Record t : Type := mk {
  rowCounter : Z;
  rowCountValue : Z;
  questionValue : option (list RowValue);
  valueChangedCount : nat
}.

Definition MaxRowCount : Z := 100.

(** [new QuestionMatrixDynamicModel(name)] *)
Definition new : t :=
  {| rowCounter := 0; rowCountValue := 2; questionValue := None;
     valueChangedCount := 0 |}.

Definition with_rowCountValue (v : Z) (q : t) : t :=
  {| rowCounter := rowCounter q; rowCountValue := v;
     questionValue := questionValue q;
     valueChangedCount := valueChangedCount q |}.

Definition with_rowCounter (v : Z) (q : t) : t :=
  {| rowCounter := v; rowCountValue := rowCountValue q;
     questionValue := questionValue q;
     valueChangedCount := valueChangedCount q |}.

Definition with_questionValue (v : option (list RowValue)) (q : t) : t :=
  {| rowCounter := rowCounter q; rowCountValue := rowCountValue q;
     questionValue := v;
     valueChangedCount := valueChangedCount q |}.

(** [get rowCount()] *)
Definition rowCount (q : t) : Z := rowCountValue q.

(** [set rowCount(val)] *)
Definition set_rowCount (val : Z) (q : t) : t :=
  if (val <? 0) || (val >? MaxRowCount) then q
  else with_rowCountValue val q.

(** [addRow()]: [this.rowCount++] reads the getter and calls the setter. *)
Definition addRow (q : t) : t := set_rowCount (rowCount q + 1) q.

(** [get value()] with no data provider attached. *)
Definition get_value (q : t) : option (list RowValue) := questionValue q.

(** [set value(newValue)], the setter inherited from [Question], with no
    data provider attached: the slot is written and the value-changed
    notification is sent once (it is counted; what a handler then does is
    not followed here). Both flags of the setter are clear whenever a
    method of this class starts. *)
Definition set_value (newValue : option (list RowValue)) (q : t) : t :=
  {| rowCounter := rowCounter q; rowCountValue := rowCountValue q;
     questionValue := newValue;
     valueChangedCount := S (valueChangedCount q) |}.

(** The loop of [createNewValue]: [n] more [push({})]. *)
Fixpoint push_empty (n : nat) (result : list RowValue) : list RowValue :=
  match n with
  | O => result
  | S n' => push_empty n' (push ∅ result)
  end.

(** [createNewValue(curValue)]. The array it returns is [curValue] itself,
    changed in place, whenever [curValue] is an array. *)
Definition createNewValue (q : t) (curValue : option (list RowValue))
  : list RowValue :=
  let result := match curValue with Some a => a | None => [] end in
  let result :=
    if len result >? rowCount q
    then splice_from (rowCount q - 1) result
    else result in
  push_empty (Z.to_nat (rowCount q - len result)) result.

(** The loop of [deleteRowValue]: is every entry an object without keys? *)
Fixpoint isEmptyValue (newValue : list RowValue) : bool :=
  match newValue with
  | [] => true
  | r :: rest => if (0 <? size r)%nat then false else isEmptyValue rest
  end.

(** [deleteRowValue(newValue, row)] *)
Definition deleteRowValue (newValue : list RowValue)
  : option (list RowValue) :=
  if isEmptyValue newValue then None else Some newValue.

(** [removeRow(index)]. [createNewValue] and [splice] change the stored
    array in place; the assignment that follows stores the outcome, so the
    slot is written once here. *)
Definition removeRow (index : Z) (q : t) : t :=
  if (index <? 0) || (index >=? rowCount q) then q
  else
    let q :=
      match get_value q with
      | Some _ =>
          let val := createNewValue q (get_value q) in
          let val := splice index 1 val in
          set_value (deleteRowValue val) q
      | None => q
      end in
    set_rowCount (rowCount q - 1) q.

(** [getRowValueByIndex(questionValue, index)] *)
Definition getRowValueByIndex (questionValue : list RowValue) (index : Z)
  : option RowValue :=
  if (index >=? 0) && (index <? len questionValue)
  then questionValue !! Z.to_nat index
  else None.

(** [createMatrixRow(value)]: the row is stamped with [rowCounter], which
    is then advanced. *)
Definition createMatrixRow (value : option RowValue) (q : t)
  : MatrixDynamicRowModel * t :=
  (mkRow (rowCounter q) value, with_rowCounter (rowCounter q + 1) q).

(** The loop of [generateRows]: [n] more iterations starting at [i]. *)
Fixpoint generateRows_loop (n : nat) (i : Z) (val : list RowValue)
    (result : list MatrixDynamicRowModel) (q : t)
  : list MatrixDynamicRowModel * t :=
  match n with
  | O => (result, q)
  | S n' =>
      let '(row, q') := createMatrixRow (getRowValueByIndex val i) q in
      generateRows_loop n' (i + 1) val (push row result) q'
  end.

(** What [createNewValue(this.value)] leaves behind the [value] accessor:
    an array stored there was changed in place, an absent value was not
    replaced by the fresh array. *)
Definition normalized_in_place (val : list RowValue) (q : t) : t :=
  match questionValue q with
  | Some _ => with_questionValue (Some val) q
  | None => q
  end.

(** [generateRows()] *)
Definition generateRows (q : t) : list MatrixDynamicRowModel * t :=
  if rowCount q =? 0 then ([], q)
  else
    let val := createNewValue q (get_value q) in
    let q := normalized_in_place val q in
    generateRows_loop (Z.to_nat (rowCount q)) 0 val [] q.

(** Every question object is built by [new] and changed by its methods
    only, so its row count stays within the bounds of the setter. *)
Definition wf (q : t) : Prop := 0 <= rowCount q <= MaxRowCount.

End MatrixDynamic.

(** ** The question: value setter, error check, enabling condition *)

Module Question.

(** Errors of [error.ts] as the error check produces them: the required
    error built by [onCheckForErrors], and whatever error object a
    validator or the survey hands back. *)
Inductive SurveyError : Type :=
  | AnswerRequiredError (text : string)
  | CustomError (text : string).

(** What an observer of the question sees happen, newest first in [trace]:
    the callbacks fired through [fireCallback], the calls that leave the
    class ([ValidatorRunner], the survey-level validation) and the
    construction of a [ConditionRunner]. *)
Inductive Event : Type :=
  | EvValueChanged
  | EvErrorsChanged
  | EvReadOnlyChanged
  | EvRunValidators
  | EvSurveyValidation
  | EvNewConditionRunner
  | EvCommentChanged.

#[global] Instance Event_eq_dec : EqDecision Event.
Proof. solve_decision. Defined.

Fixpoint occurrences (e : Event) (tr : list Event) : nat :=
  match tr with
  | [] => 0%nat
  | x :: tr' => ((if bool_decide (x = e) then 1 else 0) + occurrences e tr')%nat
  end.

(** [ISurvey], as far as the error check uses it. *)
Record Survey : Type := {
  validateQuestion : string -> option SurveyError
}.

(** [ConditionRunner]: the expression it currently holds. *)
Record ConditionRunner : Type := { expression : string }.

Section WithCollaborators.
(** Values ([any]), the state owned by the base class [QuestionBase] and
    the table handed to [runCondition]. *)
Context {V B HashTable : Type}.
(** [Base.isValueEmpty] *)
Variable isValueEmpty : V -> bool.
(** [new ValidatorRunner().run(this)], which reads the question's value. *)
Variable ValidatorRunner_run : V -> option SurveyError.
(** [ConditionRunner.run(values)] for the expression the runner holds. *)
Variable ConditionRunner_run : string -> HashTable -> bool.
(** [super.runCondition(values)], which works on the base class. *)
Variable super_runCondition : HashTable -> B -> B.

(** What a value-changed handler does with the question: it reads the
    value, assigns to it, and passes it a value from the survey
    ([onSurveyValueChanged]), any number of times. *)
Inductive Handler : Type :=
  | HDone
  | HGetValue (k : V -> Handler)
  | HSetValue (newValue : V) (k : Handler)
  | HSurveyValueChanged (newValue : V) (k : Handler).

(** Modelled from the spec: the data provider ([ISurveyData], of which the
    sources only have the calls) is a store of values keyed by question
    name, with [getValue(name)] and [setValue(name, v)]; it does not call
    back into the question. *)
Definition DataProvider : Type := string -> V.
Definition provider_getValue (d : DataProvider) (name : string) : V := d name.
Definition provider_setValue (d : DataProvider) (name : string) (v : V)
  : DataProvider :=
  fun n => if String.eqb n name then v else d n.

Record t : Type := mk {
  name : string;
  base : B;
  data : option DataProvider;
  survey : option Survey;
  validateValueCallback : option (V -> option SurveyError);
  valueChangedCallback : option Handler;
  questionValue : V;
  isRequiredValue : bool;
  readOnlyValue : bool;
  requiredErrorText : string;
  enableIf : string;
  conditionEnabelRunner : option ConditionRunner;
  errors : list SurveyError;
  isvalueChangedCallbackFiring : bool;
  isValueChangedInSurvey : bool;
  trace : list Event
}.

Definition with_base (x : B) (q : t) : t :=
  mk (name q) x (data q) (survey q) (validateValueCallback q)
     (valueChangedCallback q) (questionValue q) (isRequiredValue q)
     (readOnlyValue q) (requiredErrorText q) (enableIf q)
     (conditionEnabelRunner q) (errors q) (isvalueChangedCallbackFiring q)
     (isValueChangedInSurvey q) (trace q).
Definition with_data (x : option DataProvider) (q : t) : t :=
  mk (name q) (base q) x (survey q) (validateValueCallback q)
     (valueChangedCallback q) (questionValue q) (isRequiredValue q)
     (readOnlyValue q) (requiredErrorText q) (enableIf q)
     (conditionEnabelRunner q) (errors q) (isvalueChangedCallbackFiring q)
     (isValueChangedInSurvey q) (trace q).
Definition with_questionValue (x : V) (q : t) : t :=
  mk (name q) (base q) (data q) (survey q) (validateValueCallback q)
     (valueChangedCallback q) x (isRequiredValue q)
     (readOnlyValue q) (requiredErrorText q) (enableIf q)
     (conditionEnabelRunner q) (errors q) (isvalueChangedCallbackFiring q)
     (isValueChangedInSurvey q) (trace q).
Definition with_readOnlyValue (x : bool) (q : t) : t :=
  mk (name q) (base q) (data q) (survey q) (validateValueCallback q)
     (valueChangedCallback q) (questionValue q) (isRequiredValue q)
     x (requiredErrorText q) (enableIf q)
     (conditionEnabelRunner q) (errors q) (isvalueChangedCallbackFiring q)
     (isValueChangedInSurvey q) (trace q).
Definition with_enableIf (x : string) (q : t) : t :=
  mk (name q) (base q) (data q) (survey q) (validateValueCallback q)
     (valueChangedCallback q) (questionValue q) (isRequiredValue q)
     (readOnlyValue q) (requiredErrorText q) x
     (conditionEnabelRunner q) (errors q) (isvalueChangedCallbackFiring q)
     (isValueChangedInSurvey q) (trace q).
Definition with_conditionEnabelRunner (x : option ConditionRunner) (q : t)
  : t :=
  mk (name q) (base q) (data q) (survey q) (validateValueCallback q)
     (valueChangedCallback q) (questionValue q) (isRequiredValue q)
     (readOnlyValue q) (requiredErrorText q) (enableIf q)
     x (errors q) (isvalueChangedCallbackFiring q)
     (isValueChangedInSurvey q) (trace q).
Definition with_errors (x : list SurveyError) (q : t) : t :=
  mk (name q) (base q) (data q) (survey q) (validateValueCallback q)
     (valueChangedCallback q) (questionValue q) (isRequiredValue q)
     (readOnlyValue q) (requiredErrorText q) (enableIf q)
     (conditionEnabelRunner q) x (isvalueChangedCallbackFiring q)
     (isValueChangedInSurvey q) (trace q).
Definition with_isvalueChangedCallbackFiring (x : bool) (q : t) : t :=
  mk (name q) (base q) (data q) (survey q) (validateValueCallback q)
     (valueChangedCallback q) (questionValue q) (isRequiredValue q)
     (readOnlyValue q) (requiredErrorText q) (enableIf q)
     (conditionEnabelRunner q) (errors q) x
     (isValueChangedInSurvey q) (trace q).
Definition with_isValueChangedInSurvey (x : bool) (q : t) : t :=
  mk (name q) (base q) (data q) (survey q) (validateValueCallback q)
     (valueChangedCallback q) (questionValue q) (isRequiredValue q)
     (readOnlyValue q) (requiredErrorText q) (enableIf q)
     (conditionEnabelRunner q) (errors q) (isvalueChangedCallbackFiring q)
     x (trace q).
Definition with_trace (x : list Event) (q : t) : t :=
  mk (name q) (base q) (data q) (survey q) (validateValueCallback q)
     (valueChangedCallback q) (questionValue q) (isRequiredValue q)
     (readOnlyValue q) (requiredErrorText q) (enableIf q)
     (conditionEnabelRunner q) (errors q) (isvalueChangedCallbackFiring q)
     (isValueChangedInSurvey q) x.

Definition log (e : Event) (q : t) : t := with_trace (e :: trace q) q.

(** How often [e] has happened on [q] so far. *)
Definition count (e : Event) (q : t) : nat := occurrences e (trace q).

(** *** Value *)

(** [valueFromData], [valueToData], [onValueChanged]: the defaults. *)
Definition valueFromData (val : V) : V := val.
Definition valueToData (val : V) : V := val.
Definition onValueChanged (q : t) : t := q.

(** [getValueCore()] *)
Definition getValueCore (q : t) : V :=
  match data q with
  | Some d => provider_getValue d (name q)
  | None => questionValue q
  end.

(** [get value()] *)
Definition value (q : t) : V := valueFromData (getValueCore q).

(** [setValueCore(newValue)] *)
Definition setValueCore (newValue : V) (q : t) : t :=
  match data q with
  | Some d => with_data (Some (provider_setValue d (name q) newValue)) q
  | None => with_questionValue newValue q
  end.

(** [setNewValueInData(newValue)] *)
Definition setNewValueInData (newValue : V) (q : t) : t :=
  if isValueChangedInSurvey q then q
  else setValueCore (valueToData newValue) q.

(** [setNewValue(newValue)] *)
Definition setNewValue (newValue : V) (q : t) : t :=
  onValueChanged (setNewValueInData newValue q).

(** [onSurveyValueChanged(newValue)]; the assignment in it goes through
    [setter], the value setter of the question. *)
Definition onSurveyValueChanged (setter : V -> t -> option t) (newValue : V)
    (q : t) : option t :=
  let q := with_isValueChangedInSurvey true q in
  match setter (valueFromData newValue) q with
  | Some q =>
      let q := log EvCommentChanged q in
      Some (with_isValueChangedInSurvey false q)
  | None => None
  end.

(** A handler runs; its assignments go through [setter], the value
    setter of the question. *)
Fixpoint run_handler (setter : V -> t -> option t) (h : Handler) (q : t)
  : option t :=
  match h with
  | HDone => Some q
  | HGetValue k => run_handler setter (k (value q)) q
  | HSetValue newValue k =>
      match setter newValue q with
      | Some q' => run_handler setter k q'
      | None => None
      end
  | HSurveyValueChanged newValue k =>
      match onSurveyValueChanged setter newValue q with
      | Some q' => run_handler setter k q'
      | None => None
      end
  end.

(** [fireCallback(this.valueChangedCallback)]: the base class calls the
    handler if one is set. *)
Definition fire_valueChanged (setter : V -> t -> option t) (q : t)
  : option t :=
  match valueChangedCallback q with
  | Some h => run_handler setter h (log EvValueChanged q)
  | None => Some q
  end.

(** [set value(newValue)]. [fuel] bounds the depth of setter calls nested
    through the handler; [None] means the bound was too small. *)
Fixpoint set_value (fuel : nat) (newValue : V) (q : t) : option t :=
  match fuel with
  | O => None
  | S fuel' =>
      let q := setNewValue newValue q in
      if isvalueChangedCallbackFiring q then Some q
      else
        let q := with_isvalueChangedCallbackFiring true q in
        match fire_valueChanged (set_value fuel') q with
        | Some q' => Some (with_isvalueChangedCallbackFiring false q')
        | None => None
        end
  end.

(** [isEmpty()] *)
Definition isEmpty (q : t) : bool := isValueEmpty (value q).

(** *** Errors *)

(** [get isRequired()] *)
Definition isRequired (q : t) : bool := isRequiredValue q.

(** [hasRequiredError()] *)
Definition hasRequiredError (q : t) : bool := isRequired q && isEmpty q.

(** [onCheckForErrors(errors)] *)
Definition onCheckForErrors (q : t) : t :=
  if hasRequiredError q
  then with_errors (errors q ++ [AnswerRequiredError (requiredErrorText q)]) q
  else q.

(** [runValidators()] *)
Definition runValidators (q : t) : option SurveyError * t :=
  (ValidatorRunner_run (value q), log EvRunValidators q).

(** [fireSurveyValidation()] *)
Definition fireSurveyValidation (q : t) : option SurveyError * t :=
  let q' := log EvSurveyValidation q in
  match validateValueCallback q with
  | Some callback => (callback (value q), q')
  | None =>
      match survey q with
      | Some s => (validateQuestion s (name q), q')
      | None => (None, q')
      end
  end.

(** [this.survey] taken as a condition. *)
Definition hasSurvey (q : t) : bool :=
  match survey q with Some _ => true | None => false end.

(** [if (error) this.errors.push(error)] *)
Definition push_error (error : option SurveyError) (q : t) : t :=
  match error with
  | Some e => with_errors (errors q ++ [e]) q
  | None => q
  end.

(** The blocks of [checkForErrors], in the order of the source. First the
    validators, when nothing was found yet and the value is not empty. *)
Definition checkForErrors_validators (q : t) : t :=
  if (length (errors q) =? 0)%nat && negb (isEmpty q) then
    let '(error, q) := runValidators q in push_error error q
  else q.

(** Then the survey-level validation, when a survey is attached and
    nothing was found yet. *)
Definition checkForErrors_survey (q : t) : t :=
  if hasSurvey q && (length (errors q) =? 0)%nat then
    let '(error, q) := fireSurveyValidation q in push_error error q
  else q.

(** At last the errors-changed callback. *)
Definition checkForErrors_callback (fireCallback : bool) (errorLength : nat)
    (q : t) : t :=
  if fireCallback
     && (negb (errorLength =? length (errors q))%nat || (0 <? errorLength)%nat)
  then log EvErrorsChanged q
  else q.

(** [checkForErrors(fireCallback)] *)
Definition checkForErrors (fireCallback : bool) (q : t) : t :=
  let errorLength := length (errors q) in
  let q := with_errors [] q in
  let q := onCheckForErrors q in
  let q := checkForErrors_validators q in
  let q := checkForErrors_survey q in
  checkForErrors_callback fireCallback errorLength q.

(** [hasErrors(fireCallback)] *)
Definition hasErrors (fireCallback : bool) (q : t) : bool * t :=
  let q := checkForErrors fireCallback q in
  ((0 <? length (errors q))%nat, q).

(** *** Enabling condition *)

(** [get readOnly()] *)
Definition readOnly (q : t) : bool := readOnlyValue q.

(** [onReadOnlyChanged()] *)
Definition onReadOnlyChanged (q : t) : t := log EvReadOnlyChanged q.

(** [set readOnly(value)] *)
Definition set_readOnly (value : bool) (q : t) : t :=
  if Bool.eqb (readOnly q) value then q
  else onReadOnlyChanged (with_readOnlyValue value q).

(** [new ConditionRunner(expression)], [runner.expression = text] and
    [runner.run(values)] *)
Definition new_ConditionRunner (text : string) : ConditionRunner :=
  {| expression := text |}.
Definition set_expression (text : string) (r : ConditionRunner)
  : ConditionRunner := {| expression := text |}.
Definition run (r : ConditionRunner) (values : HashTable) : bool :=
  ConditionRunner_run (expression r) values.

(** [runCondition(values)] *)
Definition runCondition (values : HashTable) (q : t) : t :=
  let q := with_base (super_runCondition values (base q)) q in
  if String.eqb (enableIf q) "" then q
  else
    let '(runner, q) :=
      match conditionEnabelRunner q with
      | Some r => (r, q)
      | None => (new_ConditionRunner (enableIf q), log EvNewConditionRunner q)
      end in
    let runner := set_expression (enableIf q) runner in
    let q := with_conditionEnabelRunner (Some runner) q in
    set_readOnly (negb (run runner values)) q.

(** What a client does with the enabling condition over the life of a
    question: it assigns [enableIf] and it calls [runCondition]. *)
Inductive Call : Type :=
  | AssignEnableIf (text : string)
  | CallRunCondition (values : HashTable).

Definition do_call (c : Call) (q : t) : t :=
  match c with
  | AssignEnableIf text => with_enableIf text q
  | CallRunCondition values => runCondition values q
  end.

Fixpoint do_calls (cs : list Call) (q : t) : t :=
  match cs with
  | [] => q
  | c :: cs' => do_calls cs' (do_call c q)
  end.

End WithCollaborators.

Arguments t : clear implicits.
Arguments Handler : clear implicits.
Arguments Call : clear implicits.
Arguments DataProvider : clear implicits.

End Question.

(** ** Sample questions *)

Module Examples.
Import MatrixDynamic.

Definition ra : RowValue := {[ "a" := CNum 1 ]}.
Definition rb : RowValue := {[ "b" := CNum 2 ]}.
Definition rc : RowValue := {[ "c" := CNum 3 ]}.

(** Two rows configured, three answered. *)
Definition three_answers : t := with_questionValue (Some [ra; rb; rc]) new.

(** Two rows configured, both still blank. *)
Definition two_blank_rows : t := with_questionValue (Some [∅; ∅]) new.

(** The row count at its maximum. *)
Definition full : t := with_rowCountValue MaxRowCount new.

(** Questions over an optional number; an absent number is the empty
    value. *)
Definition isValueEmpty (v : option Z) : bool :=
  match v with Some _ => false | None => true end.

(** A validator that wants the number to be at least 18. *)
Definition adult (v : option Z) : option Question.SurveyError :=
  match v with
  | Some n => if n <? 18 then Some (Question.CustomError "too young") else None
  | None => None
  end.

(** A survey whose own validation rejects every question. *)
Definition strict_survey : Question.Survey :=
  {| Question.validateQuestion :=
       fun _ => Some (Question.CustomError "rejected") |}.

(** A handler that assigns 5, then the successor of what it reads, and
    then passes that on as a value coming from the survey. *)
Definition bump : Question.Handler (option Z) :=
  Question.HSetValue (Some 5)
    (Question.HGetValue (fun v =>
       Question.HSetValue (option_map Z.succ v)
         (Question.HSurveyValueChanged v Question.HDone))).

Definition age (v : option Z) (required : bool) (enableIf : string)
  : Question.t (option Z) unit :=
  Question.mk "age" tt None (Some strict_survey) None (Some bump) v required
    false "" enableIf None [] false false [].

(** The condition runner of the samples: only ["yes"] holds. *)
Definition holds (text : string) (values : unit) : bool :=
  String.eqb text "yes".

End Examples.

(** ** Clients of the dynamic matrix question *)

Module MatrixDynamicUse.
Import MatrixDynamic.

(** What a client does with a dynamic matrix question through its public
    members: it assigns [rowCount], calls [addRow()] and [removeRow(index)],
    has the rows generated, and assigns [value]. *)
Inductive Op : Type :=
  | SetRowCount (val : Z)
  | AddRow
  | RemoveRow (index : Z)
  | GenerateRows
  | SetValue (newValue : option (list RowValue)).

Definition do_op (o : Op) (q : t) : t :=
  match o with
  | SetRowCount val => set_rowCount val q
  | AddRow => addRow q
  | RemoveRow index => removeRow index q
  | GenerateRows => (generateRows q).2
  | SetValue newValue => set_value newValue q
  end.

Fixpoint do_ops (os : list Op) (q : t) : t :=
  match os with
  | [] => q
  | o :: os' => do_ops os' (do_op o q)
  end.

(** [addRow()] called [n] times. *)
Fixpoint addRows (n : nat) (q : t) : t :=
  match n with
  | O => q
  | S n' => addRows n' (addRow q)
  end.

End MatrixDynamicUse.

(** ** Further members of the question *)

Module QuestionMore.
Import Question.

Section More.
Context {V B : Type}.
(** [ISurvey.isDisplayMode] *)
Variable isDisplayMode : Survey -> bool.
(** [supportComment()] and [supportOther()], which a question class
    answers with a constant ([false] in [Question] itself). *)
Variable supportComment : bool.
Variable supportOther : bool.

(** [addError(error)] *)
Definition addError (error : SurveyError) (q : t V B) : t V B :=
  log EvErrorsChanged (with_errors (errors q ++ [error]) q).

(** [getAllErrors()]: a copy of the error list. *)
Definition getAllErrors (q : t V B) : list SurveyError := errors q.

(** [get currentErrorCount()] *)
Definition currentErrorCount (q : t V B) : nat := length (errors q).

(** [get isReadOnly()] *)
Definition isReadOnly (q : t V B) : bool :=
  readOnly q
  || match survey q with
     | Some s => isDisplayMode s
     | None => false
     end.

(** [canProcessedTextValues(name)] *)
Definition canProcessedTextValues (name : string) : bool :=
  String.eqb name "no" || String.eqb name "title" || String.eqb name "require".

(** [getProcessedTextValue(name)], given what [this.no],
    [this.processedTitle] and [this.requiredText] are; [None] is [null]. *)
Definition getProcessedTextValue (no processedTitle requiredText : string)
    (name : string) : option string :=
  if String.eqb name "no" then Some no
  else if String.eqb name "title" then Some processedTitle
  else if String.eqb name "require" then Some requiredText
  else None.

Definition with_isRequiredValue (x : bool) (q : t V B) : t V B :=
  mk (name q) (base q) (data q) (survey q) (validateValueCallback q)
     (valueChangedCallback q) (questionValue q) x
     (readOnlyValue q) (requiredErrorText q) (enableIf q)
     (conditionEnabelRunner q) (errors q) (isvalueChangedCallbackFiring q)
     (isValueChangedInSurvey q) (trace q).

(** The question together with the fields of the class that the members
    below use: the comment slot ([None] while it is [undefined]), the two
    flags, and counters for the title-changed callback and for the
    [hasOtherChanged()] hook.
    Modelled from the spec: the data provider keeps comments by question
    name as it keeps values, with [getComment(name)] and
    [setComment(name, s)]; [providerComments] is that store, used when a
    provider is attached. *)
Record Ext : Type := mkExt {
  question : t V B;
  questionComment : option string;
  providerComments : string -> string;
  hasCommentValue : bool;
  hasOtherValue : bool;
  titleChangedCount : nat;
  hasOtherChangedCount : nat
}.

Definition with_question (q : t V B) (x : Ext) : Ext :=
  mkExt q (questionComment x) (providerComments x) (hasCommentValue x)
    (hasOtherValue x) (titleChangedCount x) (hasOtherChangedCount x).
Definition with_questionComment (c : option string) (x : Ext) : Ext :=
  mkExt (question x) c (providerComments x) (hasCommentValue x)
    (hasOtherValue x) (titleChangedCount x) (hasOtherChangedCount x).
Definition with_providerComments (c : string -> string) (x : Ext) : Ext :=
  mkExt (question x) (questionComment x) c (hasCommentValue x)
    (hasOtherValue x) (titleChangedCount x) (hasOtherChangedCount x).
Definition with_hasCommentValue (b : bool) (x : Ext) : Ext :=
  mkExt (question x) (questionComment x) (providerComments x) b
    (hasOtherValue x) (titleChangedCount x) (hasOtherChangedCount x).
Definition with_hasOtherValue (b : bool) (x : Ext) : Ext :=
  mkExt (question x) (questionComment x) (providerComments x)
    (hasCommentValue x) b (titleChangedCount x) (hasOtherChangedCount x).
Definition with_titleChangedCount (n : nat) (x : Ext) : Ext :=
  mkExt (question x) (questionComment x) (providerComments x)
    (hasCommentValue x) (hasOtherValue x) n (hasOtherChangedCount x).
Definition with_hasOtherChangedCount (n : nat) (x : Ext) : Ext :=
  mkExt (question x) (questionComment x) (providerComments x)
    (hasCommentValue x) (hasOtherValue x) (titleChangedCount x) n.

(** [set isRequired(val)] *)
Definition set_isRequired (val : bool) (x : Ext) : Ext :=
  if Bool.eqb (isRequired (question x)) val then x
  else
    let x := with_question (with_isRequiredValue val (question x)) x in
    with_titleChangedCount (S (titleChangedCount x)) x.

(** [getComment()] *)
Definition getComment (x : Ext) : option string :=
  match data (question x) with
  | Some _ => Some (providerComments x (name (question x)))
  | None => questionComment x
  end.

(** [get comment()] *)
Definition comment (x : Ext) : option string := getComment x.

(** [setNewComment(newValue)] *)
Definition setNewComment (newValue : string) (x : Ext) : Ext :=
  match data (question x) with
  | Some _ =>
      with_providerComments
        (fun n => if String.eqb n (name (question x)) then newValue
                  else providerComments x n) x
  | None => with_questionComment (Some newValue) x
  end.

(** [setComment(newValue)] *)
Definition setComment (newValue : string) (x : Ext) : Ext :=
  setNewComment newValue x.

(** [set comment(newValue)]; an [undefined] comment equals no string. *)
Definition set_comment (newValue : string) (x : Ext) : Ext :=
  let same :=
    match comment x with
    | Some c => String.eqb c newValue
    | None => false
    end in
  if same then x
  else
    let x := setComment newValue x in
    with_question (log EvCommentChanged (question x)) x.

(** [get hasComment()], [get hasOther()] *)
Definition hasComment (x : Ext) : bool := hasCommentValue x.
Definition hasOther (x : Ext) : bool := hasOtherValue x.

(** [hasOtherChanged()]: the hook does nothing; its calls are counted. *)
Definition hasOtherChanged (x : Ext) : Ext :=
  with_hasOtherChangedCount (S (hasOtherChangedCount x)) x.

(** [set hasComment(val)] and [set hasOther(val)], which call each other;
    [fuel] bounds the depth of these calls, [None] means that the bound was
    too small. *)
Fixpoint set_hasComment (fuel : nat) (val : bool) (x : Ext) : option Ext :=
  match fuel with
  | O => None
  | S fuel' =>
      if negb supportComment then Some x
      else
        let x := with_hasCommentValue val x in
        if hasComment x then set_hasOther fuel' false x else Some x
  end
with set_hasOther (fuel : nat) (val : bool) (x : Ext) : option Ext :=
  match fuel with
  | O => None
  | S fuel' =>
      if negb supportOther || Bool.eqb (hasOther x) val then Some x
      else
        let x := with_hasOtherValue val x in
        match (if hasOther x then set_hasComment fuel' false x
               else Some x) with
        | Some x => Some (hasOtherChanged x)
        | None => None
        end
  end.

End More.

Arguments Ext : clear implicits.

End QuestionMore.

(** ** More sample questions *)

Module MoreExamples.

(** A question over an optional number with no handler and no survey;
    [provider] says whether a data provider (holding no value yet) is
    attached. *)
Definition plain (provider : bool) (v : option Z) (required : bool)
    (enableIf : string) : Question.t (option Z) unit :=
  Question.mk "age" tt
    (if provider then Some (fun _ => None) else None)
    None None None v required false "" enableIf None [] false false [].

(** The same question with a [validateValueCallback] that rejects. *)
Definition with_callback (v : option Z) : Question.t (option Z) unit :=
  Question.mk "age" tt None None
    (Some (fun _ => Some (Question.CustomError "rejected")))
    None v false false "" "" None [] false false [].

(** Every survey counts as being in display mode. *)
Definition always_display (s : Question.Survey) : bool := true.

(** The plain question with its further fields, nothing set yet. *)
Definition fresh (provider : bool) (v : option Z)
  : QuestionMore.Ext (option Z) unit :=
  QuestionMore.mkExt (plain provider v false "") None (fun _ => ""%string)
    false false 0 0.

End MoreExamples.

(** ** Facts about the dynamic matrix question *)

Module MatrixDynamicFacts.
Import JsArray MatrixDynamic.

Lemma len_nonneg {A} (a : list A) : 0 <= len a.
Proof. unfold len. lia. Qed.

Lemma push_empty_replicate n (l : list RowValue) :
  push_empty n l = l ++ replicate n ∅.
Proof.
  revert l. induction n as [|n IH]; intros l; simpl.
  - by rewrite app_nil_r.
  - rewrite IH. unfold push. by rewrite <- app_assoc.
Qed.

(** An array no longer than [rowCount] is padded at its end. *)
Lemma createNewValue_pads q (a : list RowValue) :
  len a <= rowCount q ->
  createNewValue q (Some a) = a ++ replicate (Z.to_nat (rowCount q - len a)) ∅.
Proof.
  intros Hle. unfold createNewValue.
  destruct (len a >? rowCount q) eqn:Hgt; [lia|].
  apply push_empty_replicate.
Qed.

(** An array longer than [rowCount] keeps [rowCount - 1] entries and gets
    one blank entry. *)
Lemma createNewValue_cuts q (a : list RowValue) :
  1 <= rowCount q < len a ->
  createNewValue q (Some a) = take (Z.to_nat (rowCount q - 1)) a ++ [∅].
Proof.
  intros [Hrc Hlt]. unfold createNewValue.
  destruct (len a >? rowCount q) eqn:Hgt; [|lia].
  unfold splice_from, actualStart.
  destruct (rowCount q - 1 <? 0) eqn:Hneg; [lia|].
  fold (len a). rewrite Z.min_l by lia.
  rewrite push_empty_replicate. f_equal.
  unfold len at 1. rewrite length_take_le by (unfold len in Hlt; lia).
  replace (Z.to_nat (rowCount q - Z.of_nat (Z.to_nat (rowCount q - 1))))
    with 1%nat by lia.
  reflexivity.
Qed.

Lemma createNewValue_absent q :
  createNewValue q None = replicate (Z.to_nat (rowCount q)) ∅.
Proof.
  unfold createNewValue.
  destruct (len [] >? rowCount q) eqn:Hgt.
  - unfold splice_from. rewrite take_nil, push_empty_replicate.
    unfold len in *. change (Z.of_nat (length [])) with 0 in *. simpl.
    replace (Z.to_nat (rowCount q - 0)) with 0%nat by lia.
    by replace (Z.to_nat (rowCount q)) with 0%nat by lia.
  - rewrite push_empty_replicate. unfold len. simpl. f_equal. lia.
Qed.

(** With at least one row configured the result has [rowCount] entries. *)
Lemma createNewValue_len q v :
  1 <= rowCount q -> len (createNewValue q v) = rowCount q.
Proof.
  intros Hrc. destruct v as [a|].
  - destruct (Z_le_gt_dec (len a) (rowCount q)) as [Hle|Hgt].
    + rewrite createNewValue_pads by done. unfold len in *.
      rewrite length_app, length_replicate. lia.
    + rewrite createNewValue_cuts by lia. unfold len in *.
      rewrite length_app, length_take_le by lia. simpl. lia.
  - rewrite createNewValue_absent. unfold len.
    rewrite length_replicate. lia.
Qed.

(** An array of exactly [rowCount] entries is left as it is. *)
Lemma createNewValue_fixed q (a : list RowValue) :
  len a = rowCount q -> createNewValue q (Some a) = a.
Proof.
  intros Heq. rewrite createNewValue_pads by lia.
  replace (rowCount q - len a) with 0 by lia. simpl. apply app_nil_r.
Qed.

(** [createNewValue] reads nothing of the question but its row count. *)
Lemma createNewValue_same_rowCount q q' v :
  rowCount q = rowCount q' -> createNewValue q v = createNewValue q' v.
Proof. unfold createNewValue. by intros ->. Qed.

(** *** The invariant of the row count *)

Lemma wf_new : wf new.
Proof. unfold wf, MaxRowCount. simpl. lia. Qed.

Lemma wf_set_rowCount val q : wf q -> wf (set_rowCount val q).
Proof.
  unfold wf, set_rowCount, MaxRowCount. intros Hq.
  destruct (val <? 0) eqn:H0; simpl; [done|].
  destruct (val >? 100) eqn:H1; simpl; [done|]. lia.
Qed.

Lemma wf_addRow q : wf q -> wf (addRow q).
Proof. apply wf_set_rowCount. Qed.

Lemma wf_set_value v q : wf q -> wf (set_value v q).
Proof. done. Qed.

Lemma wf_removeRow i q : wf q -> wf (removeRow i q).
Proof.
  intros Hq. unfold removeRow.
  destruct ((i <? 0) || (i >=? rowCount q)); [done|].
  apply wf_set_rowCount. destruct (get_value q); [by apply wf_set_value|done].
Qed.

(** *** Row generation *)

Lemma generateRows_loop_rows n i val result q :
  (generateRows_loop n i val result q).1 =
  result ++
  ((fun k => mkRow (rowCounter q + (k - i)) (getRowValueByIndex val k))
     <$> seqZ i (Z.of_nat n)).
Proof.
  revert i result q. induction n as [|n IH]; intros i result q.
  - simpl. by rewrite app_nil_r.
  - rewrite seqZ_cons by lia. cbn [generateRows_loop createMatrixRow].
    rewrite IH. unfold push. rewrite <- app_assoc. cbn [app fmap list_fmap].
    f_equal. f_equal.
    + f_equal. lia.
    + replace (Z.pred (Z.of_nat (S n))) with (Z.of_nat n) by lia.
      replace (Z.succ i) with (i + 1) by lia.
      apply list_fmap_ext. intros _ k _. simpl. f_equal. lia.
Qed.

Lemma generateRows_loop_state n i val result q :
  (generateRows_loop n i val result q).2 =
  with_rowCounter (rowCounter q + Z.of_nat n) q.
Proof.
  revert i result q. induction n as [|n IH]; intros i result q.
  - destruct q. unfold with_rowCounter. simpl. f_equal. lia.
  - cbn [generateRows_loop createMatrixRow]. rewrite IH.
    unfold with_rowCounter. simpl. f_equal. lia.
Qed.

(** The rows of one [generateRows()] call when rows are configured: row
    [k] carries entry [k] of the normalized value and the stamp
    [rowCounter + k]. *)
Lemma generateRows_rows q :
  rowCount q <> 0 ->
  (generateRows q).1 =
  (fun k => mkRow (rowCounter q + k)
              (getRowValueByIndex (createNewValue q (get_value q)) k))
    <$> seqZ 0 (Z.of_nat (Z.to_nat (rowCount q))).
Proof.
  intros Hrc. unfold generateRows.
  destruct (rowCount q =? 0) eqn:H0; [lia|].
  rewrite generateRows_loop_rows. simpl.
  assert (Hc : rowCounter (normalized_in_place
                 (createNewValue q (get_value q)) q) = rowCounter q)
    by (unfold normalized_in_place; by destruct (questionValue q)).
  assert (Hn : rowCount (normalized_in_place
                 (createNewValue q (get_value q)) q) = rowCount q)
    by (unfold normalized_in_place; by destruct (questionValue q)).
  rewrite Hc, Hn. apply list_fmap_ext. intros _ k _. f_equal. lia.
Qed.

Lemma generateRows_state q :
  rowCount q <> 0 ->
  (generateRows q).2 =
  with_rowCounter (rowCounter q + Z.of_nat (Z.to_nat (rowCount q)))
    (normalized_in_place (createNewValue q (get_value q)) q).
Proof.
  intros Hrc. unfold generateRows.
  destruct (rowCount q =? 0) eqn:H0; [lia|].
  rewrite generateRows_loop_state.
  assert (Hc : rowCounter (normalized_in_place
                 (createNewValue q (get_value q)) q) = rowCounter q)
    by (unfold normalized_in_place; by destruct (questionValue q)).
  assert (Hn : rowCount (normalized_in_place
                 (createNewValue q (get_value q)) q) = rowCount q)
    by (unfold normalized_in_place; by destruct (questionValue q)).
  by rewrite Hc, Hn.
Qed.

Lemma wf_generateRows q : wf q -> wf (generateRows q).2.
Proof.
  intros Hq. destruct (Z.eq_dec (rowCount q) 0) as [H0|H0].
  - unfold generateRows. by rewrite H0.
  - rewrite generateRows_state by done. unfold wf, normalized_in_place.
    by destruct (questionValue q).
Qed.

(** After one [generateRows()] call the next one normalizes to the same
    array: the stored array now has [rowCount] entries, and an absent value
    is still absent. *)
Lemma createNewValue_after_generateRows q :
  1 <= rowCount q ->
  let q1 := (generateRows q).2 in
  rowCount q1 = rowCount q /\
  rowCounter q1 = rowCounter q + rowCount q /\
  createNewValue q1 (get_value q1) = createNewValue q (get_value q).
Proof.
  intros Hrc. cbn zeta. rewrite generateRows_state by lia.
  unfold normalized_in_place, get_value.
  destruct (questionValue q) as [a|] eqn:Hv; simpl.
  - split; [done|]. split; [lia|].
    unfold with_rowCounter, with_questionValue. simpl.
    erewrite (createNewValue_same_rowCount _ q) by reflexivity.
    apply createNewValue_fixed. by apply createNewValue_len.
  - split; [done|]. split; [lia|]. rewrite Hv.
    by apply createNewValue_same_rowCount.
Qed.

(** *** Normalization *)

(** C1, the code at a failing input. Two rows are configured and three are
    answered: [createNewValue] cuts the array at [rowCount - 1] and pads it
    again, so the answer at position 1, which is inside the row count, is
    replaced by an empty object instead of being kept. *)
Theorem createNewValue_blanks_last_kept_row :
  rowCount Examples.three_answers = 2 /\
  createNewValue Examples.three_answers
    (Some [Examples.ra; Examples.rb; Examples.rc]) = [Examples.ra; ∅] /\
  createNewValue Examples.three_answers
    (Some [Examples.ra; Examples.rb; Examples.rc]) !! 1%nat
  <> [Examples.ra; Examples.rb; Examples.rc] !! 1%nat.
Proof.
  split; [reflexivity|]. split; [reflexivity|].
  intros H. vm_compute in H. discriminate H.
Qed.

(** With no row configured, [splice(-1)] removes the last entry only and
    nothing is padded: the result is not of length [rowCount]. *)
Example createNewValue_rowCount_0 :
  createNewValue (with_rowCountValue 0 new)
    (Some [Examples.ra; Examples.rb; Examples.rc])
  = [Examples.ra; Examples.rb].
Proof. reflexivity. Qed.

(** *** Row count *)

(** C5: an assignment below 0 or above [MaxRowCount] = 100 leaves the
    question as it is, an assignment within the bounds stores the value,
    and [addRow()] at the maximum changes nothing. *)
Theorem set_rowCount_bounds q v :
  MaxRowCount = 100 /\
  (v < 0 \/ v > MaxRowCount -> set_rowCount v q = q) /\
  (0 <= v <= MaxRowCount -> set_rowCount v q = with_rowCountValue v q /\
                            rowCount (set_rowCount v q) = v) /\
  (rowCount q = MaxRowCount -> addRow q = q).
Proof.
  split; [reflexivity|]. unfold addRow, set_rowCount, MaxRowCount.
  repeat split.
  - intros Hout. destruct (v <? 0) eqn:H0; [done|].
    destruct (v >? 100) eqn:H1; [done|]. lia.
  - destruct (v <? 0) eqn:H0; [lia|]. by destruct (v >? 100) eqn:H1; [lia|].
  - destruct (v <? 0) eqn:H0; [lia|]. by destruct (v >? 100) eqn:H1; [lia|].
  - intros ->. reflexivity.
Qed.

Lemma set_rowCount_bounds_witness :
  set_rowCount (-1) Examples.full = Examples.full /\
  set_rowCount 101 Examples.full = Examples.full /\
  rowCount (set_rowCount 7 new) = 7 /\
  addRow Examples.full = Examples.full.
Proof.
  destruct (set_rowCount_bounds Examples.full (-1)) as (_ & Hlow & _ & Hadd).
  destruct (set_rowCount_bounds Examples.full 101) as (_ & Hhigh & _).
  destruct (set_rowCount_bounds new 7) as (_ & _ & Hin & _).
  split; [apply Hlow; left; lia|].
  split; [apply Hhigh; right; unfold MaxRowCount; lia|].
  split; [apply Hin; unfold MaxRowCount; lia|].
  apply Hadd. reflexivity.
Defined.

(** *** Row removal *)

(** C6: with two rows configured over the backing value [[{}, {}]],
    [removeRow(0)] leaves no value ([null]) and one row; and [removeRow]
    with an index outside [0, rowCount) changes nothing. *)
Theorem removeRow_collapses_blank_rows q :
  (rowCount q = 2 -> get_value q = Some [∅; ∅] ->
   get_value (removeRow 0 q) = None /\ rowCount (removeRow 0 q) = 1) /\
  (forall index, index < 0 \/ index >= rowCount q -> removeRow index q = q).
Proof.
  split.
  - intros Hrc Hv. unfold removeRow. rewrite Hv.
    rewrite createNewValue_fixed by (by rewrite Hrc).
    unfold rowCount in *. cbn. rewrite Hrc. cbn.
    split; reflexivity.
  - intros index Hout. unfold removeRow.
    destruct (index <? 0) eqn:H0; [done|].
    destruct (index >=? rowCount q) eqn:H1; [done|]. lia.
Qed.

Lemma removeRow_collapses_blank_rows_witness :
  get_value (removeRow 0 Examples.two_blank_rows) = None /\
  rowCount (removeRow 0 Examples.two_blank_rows) = 1 /\
  removeRow 2 Examples.two_blank_rows = Examples.two_blank_rows.
Proof.
  pose proof (removeRow_collapses_blank_rows Examples.two_blank_rows)
    as [Hcollapse Hout].
  destruct (Hcollapse eq_refl eq_refl) as [Hv Hrc].
  split; [exact Hv|]. split; [exact Hrc|].
  apply Hout. right. simpl. lia.
Defined.

(** C9: when the backing value is absent and the index is within
    [0, rowCount), [removeRow(index)] only lowers the row count by one:
    the value stays absent, and no value-changed notification is sent. *)
Theorem removeRow_absent_value q index :
  wf q -> get_value q = None -> 0 <= index < rowCount q ->
  removeRow index q = with_rowCountValue (rowCount q - 1) q /\
  rowCount (removeRow index q) = rowCount q - 1 /\
  get_value (removeRow index q) = None /\
  valueChangedCount (removeRow index q) = valueChangedCount q.
Proof.
  intros [Hlo Hhi] Hv [Hi0 Hi1]. unfold MaxRowCount in Hhi.
  assert (Heq : removeRow index q = with_rowCountValue (rowCount q - 1) q).
  { unfold removeRow. rewrite Hv.
    destruct (index <? 0) eqn:H0; [lia|].
    destruct (index >=? rowCount q) eqn:H1; [lia|]. simpl.
    unfold set_rowCount, MaxRowCount.
    destruct (rowCount q - 1 <? 0) eqn:H2; [lia|].
    by destruct (rowCount q - 1 >? 100) eqn:H3; [lia|]. }
  rewrite Heq. by repeat split.
Qed.

Lemma removeRow_absent_value_witness :
  rowCount (removeRow 1 new) = 1 /\ get_value (removeRow 1 new) = None.
Proof.
  assert (Hwf : wf new) by (unfold wf, MaxRowCount; simpl; lia).
  assert (Hi : 0 <= 1 < rowCount new) by (simpl; lia).
  destruct (removeRow_absent_value new 1 Hwf eq_refl Hi) as (_ & Hrc & Hv & _).
  split; [exact Hrc | exact Hv].
Defined.

(** *** Row generation, claims *)

(** C10: a question that was just constructed has a row count of 2, and
    its first [generateRows()] call returns two row models (stamped 0 and
    1, each over an empty object). *)
Theorem new_generates_two_rows :
  rowCount new = 2 /\
  length (generateRows new).1 = 2%nat /\
  (generateRows new).1 = [mkRow 0 (Some ∅); mkRow 1 (Some ∅)].
Proof. repeat split. Qed.

(** C8: two [generateRows()] calls in a row return as many row models as
    rows are configured, the row values agree position by position, and
    the stamp of each row of the second call is larger, by the row count,
    than the stamp of the row of the first call at the same position. *)
Theorem generateRows_twice q :
  wf q ->
  let rows1 := (generateRows q).1 in
  let rows2 := (generateRows (generateRows q).2).1 in
  len rows1 = rowCount q /\
  len rows2 = rowCount q /\
  forall (i : nat) r1 r2,
    rows1 !! i = Some r1 -> rows2 !! i = Some r2 ->
    value r1 = value r2 /\
    index r2 = index r1 + rowCount q /\
    index r1 < index r2.
Proof.
  intros [Hlo _]. cbn zeta.
  destruct (Z.eq_dec (rowCount q) 0) as [H0|H0].
  - unfold generateRows. rewrite H0. simpl. rewrite H0. simpl.
    repeat split; try done.
  - destruct (createNewValue_after_generateRows q ltac:(lia))
      as (Hrc & Hctr & Hval).
    rewrite (generateRows_rows (generateRows q).2) by lia.
    rewrite (generateRows_rows q) by done.
    rewrite Hrc, Hctr, Hval. unfold len.
    rewrite !length_fmap, !length_seqZ.
    split; [lia|]. split; [lia|].
    intros i r1 r2. rewrite !list_lookup_fmap.
    destruct (seqZ 0 (Z.of_nat (Z.to_nat (rowCount q))) !! i) as [k|];
      simpl; [|done].
    intros [= <-] [= <-]. simpl. split; [done|]. lia.
Qed.

Lemma generateRows_twice_witness :
  len (generateRows Examples.three_answers).1 = 2 /\
  len (generateRows (generateRows Examples.three_answers).2).1 = 2.
Proof.
  assert (Hwf : wf Examples.three_answers)
    by (unfold wf, MaxRowCount; simpl; lia).
  destruct (generateRows_twice Examples.three_answers Hwf) as (H1 & H2 & _).
  split; [exact H1 | exact H2].
Defined.

End MatrixDynamicFacts.

(** ** Facts about the question *)

Module QuestionFacts.
Import Question.

Lemma occurrences_cons_eq e tr :
  occurrences e (e :: tr) = S (occurrences e tr).
Proof. simpl. by rewrite bool_decide_eq_true_2. Qed.

Lemma occurrences_cons_ne e x tr :
  x <> e -> occurrences e (x :: tr) = occurrences e tr.
Proof. intros Hne. simpl. by rewrite bool_decide_eq_false_2. Qed.

Section Facts.
Context {V B HashTable : Type}.
Variable isValueEmpty : V -> bool.
Variable ValidatorRunner_run : V -> option SurveyError.
Variable ConditionRunner_run : string -> HashTable -> bool.
Variable super_runCondition : HashTable -> B -> B.
Implicit Types (q : t V B) (h : Handler V).

(** *** The value setter *)

(** Storing a value touches neither the flag, the handler nor the trace. *)
Lemma setNewValue_frame newValue q :
  isvalueChangedCallbackFiring (setNewValue newValue q)
    = isvalueChangedCallbackFiring q /\
  valueChangedCallback (setNewValue newValue q) = valueChangedCallback q /\
  trace (setNewValue newValue q) = trace q.
Proof.
  unfold setNewValue, onValueChanged, setNewValueInData, setValueCore.
  destruct (isValueChangedInSurvey q), (data q); done.
Qed.

Lemma set_value_S fuel newValue q :
  set_value (S fuel) newValue q =
  if isvalueChangedCallbackFiring (setNewValue newValue q)
  then Some (setNewValue newValue q)
  else
    match fire_valueChanged (set_value fuel)
            (with_isvalueChangedCallbackFiring true
               (setNewValue newValue q)) with
    | Some q' => Some (with_isvalueChangedCallbackFiring false q')
    | None => None
    end.
Proof. reflexivity. Qed.

(** While the flag is up, the setter stores and returns. *)
Lemma set_value_while_firing fuel newValue q :
  isvalueChangedCallbackFiring q = true ->
  set_value (S fuel) newValue q = Some (setNewValue newValue q).
Proof.
  intros Hfiring. rewrite set_value_S.
  destruct (setNewValue_frame newValue q) as (-> & _ & _).
  by rewrite Hfiring.
Qed.

(** So a handler that runs while the flag is up ends, whatever it
    assigns, with the flag still up and no further value-changed
    notification. *)
Lemma run_handler_while_firing fuel h :
  forall q,
    isvalueChangedCallbackFiring q = true ->
    exists q',
      run_handler (set_value (S fuel)) h q = Some q' /\
      isvalueChangedCallbackFiring q' = true /\
      count EvValueChanged q' = count EvValueChanged q.
Proof.
  induction h as [|k IH|newValue k IH|newValue k IH]; intros q Hfiring.
  - by exists q.
  - cbn [run_handler]. by apply IH.
  - cbn [run_handler]. rewrite set_value_while_firing by done.
    destruct (setNewValue_frame newValue q) as (Hf & _ & Htr).
    destruct (IH (setNewValue newValue q)) as (q' & Hrun & Hf' & Hc');
      [congruence|].
    exists q'. unfold count in *. repeat split; congruence.
  - cbn [run_handler]. unfold onSurveyValueChanged.
    rewrite set_value_while_firing by done.
    set (q1 := setNewValue (valueFromData newValue)
                 (with_isValueChangedInSurvey true q)).
    destruct (setNewValue_frame (valueFromData newValue)
                (with_isValueChangedInSurvey true q)) as (Hf & _ & Htr).
    fold q1 in Hf, Htr.
    destruct (IH (with_isValueChangedInSurvey false
                    (log EvCommentChanged q1)))
      as (q' & Hrun & Hf' & Hc'); [by rewrite <- Hfiring|].
    exists q'. split; [exact Hrun|]. split; [exact Hf'|].
    rewrite Hc'. unfold count. cbn [trace with_isValueChangedInSurvey log
      with_trace]. rewrite Htr. by rewrite occurrences_cons_ne.
Qed.

(** C4: an assignment to [value] made while no notification is under way
    returns (a call depth of two is enough, whatever the handler does)
    and fires the value-changed callback once if a handler is set and
    never otherwise: the assignments the handler itself makes add no
    notification, and the flag is down again afterwards. *)
Theorem set_value_fires_once fuel newValue q :
  (2 <= fuel)%nat ->
  isvalueChangedCallbackFiring q = false ->
  exists q',
    set_value fuel newValue q = Some q' /\
    isvalueChangedCallbackFiring q' = false /\
    count EvValueChanged q' =
      (count EvValueChanged q
       + match valueChangedCallback q with Some _ => 1 | None => 0 end)%nat
    /\
    (count EvValueChanged q' <= count EvValueChanged q + 1)%nat.
Proof.
  intros Hfuel Hfiring. destruct fuel as [|[|fuel]]; [lia|lia|].
  destruct (setNewValue_frame newValue q) as (Hf & Hcb & Htr).
  rewrite set_value_S.
  rewrite Hf, Hfiring. unfold fire_valueChanged. cbn [valueChangedCallback
    with_isvalueChangedCallbackFiring]. rewrite Hcb.
  destruct (valueChangedCallback q) as [h|].
  - destruct (run_handler_while_firing fuel h
                (log EvValueChanged
                   (with_isvalueChangedCallbackFiring true
                      (setNewValue newValue q))))
      as (q' & Hrun & _ & Hc'); [done|].
    rewrite Hrun. eexists. split; [reflexivity|].
    unfold count in *. cbn [trace with_isvalueChangedCallbackFiring].
    rewrite Hc'. cbn [trace log with_trace with_isvalueChangedCallbackFiring].
    rewrite Htr, occurrences_cons_eq.
    repeat split; lia.
  - eexists. split; [reflexivity|]. unfold count. cbn. rewrite Htr.
    repeat split; lia.
Qed.

(** *** The error check *)

Local Ltac count_events :=
  repeat first
    [ rewrite occurrences_cons_eq
    | rewrite occurrences_cons_ne by discriminate
    | rewrite bool_decide_eq_true_2 by reflexivity
    | rewrite bool_decide_eq_false_2 by discriminate ].

Local Ltac close_counts :=
  count_events; rewrite ?andb_false_r, ?andb_true_r; cbn [andb negb];
  split; lia.

(** The question [q] with its error list and its trace replaced: every
    step of the check yields a question of this form. *)
Local Abbreviation upd es tr q := (with_trace tr (with_errors es q)).

Lemma onCheckForErrors_upd es tr q :
  onCheckForErrors isValueEmpty (upd es tr q) =
  upd (es ++ if hasRequiredError isValueEmpty q
             then [AnswerRequiredError (requiredErrorText q)] else []) tr q.
Proof.
  unfold onCheckForErrors.
  change (hasRequiredError isValueEmpty (upd es tr q))
    with (hasRequiredError isValueEmpty q).
  destruct (hasRequiredError isValueEmpty q); [reflexivity|].
  by rewrite app_nil_r.
Qed.

Lemma push_error_upd error es tr q :
  push_error error (upd es tr q) = upd (es ++ option_list error) tr q.
Proof. destruct error; [reflexivity|]. simpl. by rewrite app_nil_r. Qed.

Lemma checkForErrors_validators_upd es tr q :
  checkForErrors_validators isValueEmpty ValidatorRunner_run (upd es tr q) =
  if (length es =? 0)%nat && negb (isEmpty isValueEmpty q)
  then upd (es ++ option_list (ValidatorRunner_run (value q)))
         (EvRunValidators :: tr) q
  else upd es tr q.
Proof.
  unfold checkForErrors_validators.
  change (errors (upd es tr q)) with es.
  change (isEmpty isValueEmpty (upd es tr q)) with (isEmpty isValueEmpty q).
  destruct ((length es =? 0)%nat && negb (isEmpty isValueEmpty q));
    [|reflexivity].
  unfold runValidators.
  change (log EvRunValidators (upd es tr q))
    with (upd es (EvRunValidators :: tr) q).
  change (value (upd es tr q)) with (value q).
  apply push_error_upd.
Qed.

Lemma checkForErrors_survey_upd es tr q :
  checkForErrors_survey (upd es tr q) =
  if hasSurvey q && (length es =? 0)%nat
  then upd (es ++ option_list (fireSurveyValidation q).1)
         (EvSurveyValidation :: tr) q
  else upd es tr q.
Proof.
  unfold checkForErrors_survey.
  change (errors (upd es tr q)) with es.
  change (hasSurvey (upd es tr q)) with (hasSurvey q).
  destruct (hasSurvey q && (length es =? 0)%nat); [|reflexivity].
  unfold fireSurveyValidation.
  change (validateValueCallback (upd es tr q)) with (validateValueCallback q).
  change (survey (upd es tr q)) with (survey q).
  change (log EvSurveyValidation (upd es tr q))
    with (upd es (EvSurveyValidation :: tr) q).
  change (value (upd es tr q)) with (value q).
  change (name (upd es tr q)) with (name q).
  destruct (validateValueCallback q) as [callback|].
  - apply push_error_upd.
  - destruct (survey q); apply push_error_upd.
Qed.

Lemma checkForErrors_callback_upd fireCallback errorLength es tr q :
  checkForErrors_callback fireCallback errorLength (upd es tr q) =
  upd es
    (if fireCallback
        && (negb (errorLength =? length es)%nat || (0 <? errorLength)%nat)
     then EvErrorsChanged :: tr else tr) q.
Proof.
  unfold checkForErrors_callback. change (errors (upd es tr q)) with es.
  by destruct (fireCallback
               && (negb (errorLength =? length es)%nat
                   || (0 <? errorLength)%nat)).
Qed.

(** The errors found by the first three steps of a check, and what these
    steps add to the trace. *)
Local Abbreviation found q :=
  (if hasRequiredError isValueEmpty q
   then [AnswerRequiredError (requiredErrorText q)]
   else
     match (if isEmpty isValueEmpty q then None
            else ValidatorRunner_run (value q)) with
     | Some e => [e]
     | None =>
         if hasSurvey q then
           match (fireSurveyValidation q).1 with
           | Some e => [e]
           | None => []
           end
         else []
     end).

Lemma checkForErrors_upd fireCallback q :
  exists tr,
    checkForErrors isValueEmpty ValidatorRunner_run fireCallback q
      = upd (found q) tr q /\
    occurrences EvRunValidators tr =
      (count EvRunValidators q
       + if negb (hasRequiredError isValueEmpty q)
            && negb (isEmpty isValueEmpty q) then 1 else 0)%nat /\
    occurrences EvSurveyValidation tr =
      (count EvSurveyValidation q
       + if hasSurvey q
            && negb (hasRequiredError isValueEmpty q)
            && match (if isEmpty isValueEmpty q then None
                      else ValidatorRunner_run (value q)) with
               | Some _ => false
               | None => true
               end
         then 1 else 0)%nat.
Proof.
  unfold checkForErrors. cbv zeta.
  change (with_errors [] q) with (upd [] (trace q) q).
  rewrite onCheckForErrors_upd, checkForErrors_validators_upd.
  unfold count.
  destruct (hasRequiredError isValueEmpty q),
    (isEmpty isValueEmpty q),
    (ValidatorRunner_run (value q)) as [e|];
    unfold option_list; cbn [app length Nat.eqb andb negb option_rect];
    rewrite checkForErrors_survey_upd;
    destruct (hasSurvey q), ((fireSurveyValidation q).1) as [e'|];
    unfold option_list; cbn [app length Nat.eqb andb negb option_rect];
    rewrite checkForErrors_callback_upd;
    (eexists; split; [reflexivity|]);
    destruct (fireCallback && _); close_counts.
Qed.

(** The errors after a check: the required error, else the validators'
    error, else the error of the survey-level validation. *)
Lemma checkForErrors_errors fireCallback q :
  errors (checkForErrors isValueEmpty ValidatorRunner_run fireCallback q) =
  found q.
Proof.
  destruct (checkForErrors_upd fireCallback q) as (tr & -> & _). reflexivity.
Qed.

(** The validators are run when there is no required error and the value
    is not empty, and only then. *)
Lemma checkForErrors_validators_count fireCallback q :
  count EvRunValidators
    (checkForErrors isValueEmpty ValidatorRunner_run fireCallback q) =
  (count EvRunValidators q
   + if negb (hasRequiredError isValueEmpty q)
        && negb (isEmpty isValueEmpty q) then 1 else 0)%nat.
Proof.
  destruct (checkForErrors_upd fireCallback q) as (tr & -> & <- & _).
  reflexivity.
Qed.

(** The survey-level validation is invoked when a survey is attached and
    neither the required check nor the validators gave an error, and only
    then. *)
Lemma checkForErrors_survey_count fireCallback q :
  count EvSurveyValidation
    (checkForErrors isValueEmpty ValidatorRunner_run fireCallback q) =
  (count EvSurveyValidation q
   + if hasSurvey q
        && negb (hasRequiredError isValueEmpty q)
        && match (if isEmpty isValueEmpty q then None
                  else ValidatorRunner_run (value q)) with
           | Some _ => false
           | None => true
           end
     then 1 else 0)%nat.
Proof.
  destruct (checkForErrors_upd fireCallback q) as (tr & -> & _ & <-).
  reflexivity.
Qed.

(** C2: when the question is required and its value is empty,
    [hasErrors()] returns true and leaves exactly one error, the required
    error; neither the validators nor the survey-level validation are
    called. *)
Theorem hasErrors_required_empty fireCallback q :
  isRequired q = true ->
  isEmpty isValueEmpty q = true ->
  let r := hasErrors isValueEmpty ValidatorRunner_run fireCallback q in
  r.1 = true /\
  errors r.2 = [AnswerRequiredError (requiredErrorText q)] /\
  count EvRunValidators r.2 = count EvRunValidators q /\
  count EvSurveyValidation r.2 = count EvSurveyValidation q.
Proof.
  intros Hreq Hempty. cbn zeta. unfold hasErrors. cbn [fst snd].
  rewrite checkForErrors_errors, checkForErrors_validators_count,
    checkForErrors_survey_count.
  unfold hasRequiredError. rewrite Hreq, Hempty. cbn.
  rewrite andb_false_r. cbn. repeat split; lia.
Qed.

(** C3: every check leaves at most one error, the first of: required
    error, validators' error, survey-level error. In particular, when the
    value is not empty and the validators give an error, that error is
    the only one and the survey-level validation is not invoked. *)
Theorem checkForErrors_first_match fireCallback q :
  let q' := (hasErrors isValueEmpty ValidatorRunner_run fireCallback q).2 in
  (length (errors q') <= 1)%nat /\
  (hasRequiredError isValueEmpty q = true ->
     errors q' = [AnswerRequiredError (requiredErrorText q)] /\
     count EvRunValidators q' = count EvRunValidators q /\
     count EvSurveyValidation q' = count EvSurveyValidation q) /\
  (forall e,
     isEmpty isValueEmpty q = false ->
     ValidatorRunner_run (value q) = Some e ->
     errors q' = [e] /\
     count EvSurveyValidation q' = count EvSurveyValidation q) /\
  (forall e,
     hasRequiredError isValueEmpty q = false ->
     (if isEmpty isValueEmpty q then None
      else ValidatorRunner_run (value q)) = None ->
     hasSurvey q = true ->
     (fireSurveyValidation q).1 = Some e ->
     errors q' = [e]).
Proof.
  cbn zeta. unfold hasErrors. cbn [fst snd].
  rewrite checkForErrors_errors, checkForErrors_validators_count,
    checkForErrors_survey_count.
  split; [|split; [|split]].
  - repeat (case_match; simplify_eq/=); lia.
  - intros ->. cbn. rewrite andb_false_r. cbn. repeat split; lia.
  - intros e Hne Hv. unfold hasRequiredError. rewrite Hne, Hv.
    rewrite andb_false_r. cbn. rewrite andb_false_r. cbn. split; [done|lia].
  - intros e -> -> -> ->. done.
Qed.

(** *** The enabling condition *)

Lemma runCondition_empty values q :
  enableIf q = "" ->
  runCondition ConditionRunner_run super_runCondition values q =
  with_base (super_runCondition values (base q)) q.
Proof. intros Hen. unfold runCondition. cbn. by rewrite Hen. Qed.

Lemma runCondition_nonempty values q :
  enableIf q <> "" ->
  let q' := runCondition ConditionRunner_run super_runCondition values q in
  readOnly q' = negb (ConditionRunner_run (enableIf q) values) /\
  conditionEnabelRunner q' = Some {| expression := enableIf q |} /\
  enableIf q' = enableIf q /\
  count EvNewConditionRunner q' =
    (count EvNewConditionRunner q
     + match conditionEnabelRunner q with Some _ => 0 | None => 1 end)%nat.
Proof.
  intros Hen. cbn zeta. unfold runCondition. cbn.
  destruct (String.eqb_spec (enableIf q) "") as [|_]; [done|].
  unfold set_readOnly, readOnly, onReadOnlyChanged, run, set_expression,
    new_ConditionRunner, count, log.
  destruct q as [n b d s vc h v req ro txt en cr errs f1 f2 tr]. cbn.
  destruct cr as [r|], ro; cbn;
    destruct (ConditionRunner_run en values); cbn;
    count_events; repeat split; lia.
Qed.

(** Runners built so far, plus one if none is held yet. *)
Local Abbreviation runner_budget q :=
  (count EvNewConditionRunner q
   + match conditionEnabelRunner q with Some _ => 0 | None => 1 end)%nat.

Lemma do_call_budget c q :
  (runner_budget (do_call ConditionRunner_run super_runCondition c q)
   <= runner_budget q)%nat.
Proof.
  destruct c as [text|values]; cbn [do_call]; [done|].
  destruct (String.eqb_spec (enableIf q) "") as [Hen|Hen].
  - by rewrite runCondition_empty.
  - destruct (runCondition_nonempty values q Hen) as (_ & Hr & _ & Hc).
    rewrite Hr, Hc. lia.
Qed.

Lemma do_calls_budget cs :
  forall q,
    (runner_budget (do_calls ConditionRunner_run super_runCondition cs q)
     <= runner_budget q)%nat.
Proof.
  induction cs as [|c cs IH]; intros q; cbn [do_calls]; [done|].
  etrans; [apply IH|apply do_call_budget].
Qed.

(** C7: with an empty [enableIf], [runCondition] changes nothing but what
    the base class changes, so [readOnly] keeps its value; with an
    [enableIf], [readOnly] becomes the negation of what the runner
    returns for the current [enableIf] text, the runner holds that text,
    and a runner is built only when none was held. Over any sequence of
    assignments to [enableIf] and [runCondition] calls at most one runner
    is built for a question that holds none, and none for a question that
    holds one. *)
Theorem runCondition_enableIf values q :
  let q' := runCondition ConditionRunner_run super_runCondition values q in
  (enableIf q = "" ->
     q' = with_base (super_runCondition values (base q)) q /\
     readOnly q' = readOnly q /\
     conditionEnabelRunner q' = conditionEnabelRunner q /\
     trace q' = trace q) /\
  (enableIf q <> "" ->
     readOnly q' = negb (ConditionRunner_run (enableIf q) values) /\
     conditionEnabelRunner q' = Some {| expression := enableIf q |} /\
     count EvNewConditionRunner q' =
       (count EvNewConditionRunner q
        + match conditionEnabelRunner q with Some _ => 0 | None => 1 end)%nat)
  /\
  (forall cs,
     (count EvNewConditionRunner
        (do_calls ConditionRunner_run super_runCondition cs q)
      <= count EvNewConditionRunner q
         + match conditionEnabelRunner q with Some _ => 0 | None => 1 end)%nat).
Proof.
  cbn zeta. split; [|split].
  - intros Hen. by rewrite runCondition_empty.
  - intros Hen.
    by destruct (runCondition_nonempty values q Hen) as (? & ? & _ & ?).
  - intros cs. pose proof (do_calls_budget cs q) as Hb. lia.
Qed.

End Facts.

(** *** The facts at the sample questions *)

(** A handler that assigns twice during its notification: the outer
    assignment still notifies once, and the last inner assignment is what
    the question holds. *)
Example set_value_reentrant :
  option_map (fun q => (value q, count EvValueChanged q))
    (set_value 2 (Some 1) (Examples.age None false ""))
  = Some (Some 6, 1%nat).
Proof. reflexivity. Qed.

Lemma set_value_fires_once_witness :
  exists q',
    set_value 2 (Some 1) (Examples.age None false "") = Some q' /\
    isvalueChangedCallbackFiring q' = false /\
    count EvValueChanged q' = 1%nat.
Proof.
  destruct (set_value_fires_once 2 (Some 1) (Examples.age None false ""))
    as (q' & Hrun & Hflag & Hcount & _); [lia|reflexivity|].
  exists q'. split; [exact Hrun|]. split; [exact Hflag|exact Hcount].
Defined.

Lemma hasErrors_required_empty_witness :
  let r := hasErrors Examples.isValueEmpty Examples.adult true
             (Examples.age None true "") in
  r.1 = true /\ errors r.2 = [AnswerRequiredError ""].
Proof.
  destruct (hasErrors_required_empty Examples.isValueEmpty Examples.adult
              true (Examples.age None true "") eq_refl eq_refl)
    as (Hres & Herrs & _).
  split; [exact Hres|exact Herrs].
Defined.

Lemma checkForErrors_first_match_witness :
  let r := hasErrors Examples.isValueEmpty Examples.adult true
             (Examples.age (Some 12) true "") in
  errors r.2 = [CustomError "too young"] /\
  count EvSurveyValidation r.2 = 0%nat.
Proof.
  destruct (checkForErrors_first_match Examples.isValueEmpty Examples.adult
              true (Examples.age (Some 12) true ""))
    as (_ & _ & Hvalidator & _).
  exact (Hvalidator (CustomError "too young") eq_refl eq_refl).
Defined.

Lemma runCondition_enableIf_witness :
  readOnly (runCondition Examples.holds (fun _ b => b) tt
              (with_readOnlyValue true (Examples.age None false "")))
  = true /\
  readOnly (runCondition Examples.holds (fun _ b => b) tt
              (with_readOnlyValue true (Examples.age None false "yes")))
  = false.
Proof.
  destruct (runCondition_enableIf Examples.holds (fun _ b => b) tt
              (with_readOnlyValue true (Examples.age None false "")))
    as (Hempty & _ & _).
  destruct (runCondition_enableIf Examples.holds (fun _ b => b) tt
              (with_readOnlyValue true (Examples.age None false "yes")))
    as (_ & Hset & _).
  split.
  - destruct (Hempty eq_refl) as (_ & Hro & _). exact Hro.
  - destruct Hset as (Hro & _); [discriminate|]. exact Hro.
Defined.

End QuestionFacts.

(** ** Further facts about the dynamic matrix question *)

Module MatrixDynamicExtra.
Import JsArray MatrixDynamic MatrixDynamicUse MatrixDynamicFacts.

(** *** The row count and the row counter over the life of a question *)

(** X1: whatever a client does with a question built by the constructor,
    its row count stays between 0 and [MaxRowCount]. *)
Theorem rowCount_stays_within_bounds os :
  0 <= rowCount (do_ops os new) <= MaxRowCount.
Proof.
  change (wf (do_ops os new)).
  assert (Hall : forall q, wf q -> wf (do_ops os q)).
  { induction os as [|o os IH]; intros q Hq; cbn [do_ops]; [done|].
    apply IH. destruct o; cbn [do_op].
    - by apply wf_set_rowCount.
    - by apply wf_addRow.
    - by apply wf_removeRow.
    - by apply wf_generateRows.
    - by apply wf_set_value. }
  apply Hall, wf_new.
Qed.

Lemma rowCounter_set_rowCount val q :
  rowCounter (set_rowCount val q) = rowCounter q.
Proof.
  unfold set_rowCount. by destruct ((val <? 0) || (val >? MaxRowCount)).
Qed.

Lemma rowCounter_removeRow index q :
  rowCounter (removeRow index q) = rowCounter q.
Proof.
  unfold removeRow. destruct ((index <? 0) || (index >=? rowCount q)); [done|].
  rewrite rowCounter_set_rowCount. by destruct (get_value q).
Qed.

Lemma rowCounter_generateRows q :
  wf q -> rowCounter (generateRows q).2 = rowCounter q + rowCount q.
Proof.
  intros [Hlo _]. destruct (Z.eq_dec (rowCount q) 0) as [H0|H0].
  - unfold generateRows. rewrite H0. simpl. lia.
  - rewrite generateRows_state by done. simpl.
    unfold normalized_in_place. destruct (questionValue q); simpl; lia.
Qed.

(** X2: the row counter, from which the rows are stamped, is never
    lowered: no sequence of operations brings it below the value it had. *)
Theorem rowCounter_never_decreases os q :
  wf q -> rowCounter q <= rowCounter (do_ops os q).
Proof.
  revert q. induction os as [|o os IH]; intros q Hq; cbn [do_ops]; [lia|].
  assert (Hstep : rowCounter q <= rowCounter (do_op o q) /\ wf (do_op o q)).
  { destruct o; cbn [do_op].
    - rewrite rowCounter_set_rowCount. split; [lia|by apply wf_set_rowCount].
    - unfold addRow. rewrite rowCounter_set_rowCount.
      split; [lia|by apply wf_set_rowCount].
    - rewrite rowCounter_removeRow. split; [lia|by apply wf_removeRow].
    - rewrite rowCounter_generateRows by done. pose proof Hq as [Hlo _].
      split; [lia|]. by apply wf_generateRows.
    - split; [simpl; lia|done]. }
  destruct Hstep as [Hle Hwf]. specialize (IH _ Hwf). lia.
Qed.

Lemma rowCounter_never_decreases_witness :
  rowCounter Examples.three_answers
  <= rowCounter (do_ops [GenerateRows; RemoveRow 0; AddRow; GenerateRows]
                   Examples.three_answers).
Proof.
  apply (rowCounter_never_decreases
           [GenerateRows; RemoveRow 0; AddRow; GenerateRows]
           Examples.three_answers).
  unfold wf, MaxRowCount. simpl. lia.
Defined.

(** X3: [addRow()] called [n] times raises the row count by [n] until the
    maximum is reached, and leaves it at the maximum from there on. *)
Theorem addRows_saturates n q :
  wf q ->
  rowCount (addRows n q) = Z.min (rowCount q + Z.of_nat n) MaxRowCount.
Proof.
  revert q. induction n as [|n IH]; intros q Hq.
  - destruct Hq. simpl. lia.
  - cbn [addRows]. rewrite IH by (by apply wf_addRow).
    destruct Hq as [Hlo Hhi]. unfold addRow, set_rowCount, MaxRowCount in *.
    destruct (rowCount q + 1 <? 0) eqn:H0; [lia|].
    destruct (rowCount q + 1 >? 100) eqn:H1; simpl.
    + lia.
    + unfold rowCount in *. simpl. lia.
Qed.

Lemma addRows_saturates_witness :
  rowCount (addRows 150 new) = 100.
Proof.
  rewrite (addRows_saturates 150 new).
  - reflexivity.
  - unfold wf, MaxRowCount. simpl. lia.
Defined.

(** X4: adding a row and removing the last row again gives back the
    question as it was, when it holds no value and is not full. *)
Theorem addRow_removeRow_last q :
  wf q -> rowCount q < MaxRowCount -> get_value q = None ->
  removeRow (rowCount q) (addRow q) = q.
Proof.
  intros [Hlo Hhi] Hfull Hv. unfold MaxRowCount in *.
  assert (Hadd : addRow q = with_rowCountValue (rowCount q + 1) q).
  { unfold addRow, set_rowCount, MaxRowCount.
    destruct (rowCount q + 1 <? 0) eqn:H0; [lia|].
    by destruct (rowCount q + 1 >? 100) eqn:H1; [lia|]. }
  rewrite Hadd. unfold removeRow. cbn [rowCount with_rowCountValue
    rowCountValue get_value questionValue]. unfold get_value in Hv.
  rewrite Hv. unfold rowCount in *.
  destruct (rowCountValue q <? 0) eqn:H0; [lia|].
  destruct (rowCountValue q >=? rowCountValue q + 1) eqn:H1; [lia|]. simpl.
  unfold set_rowCount, MaxRowCount. cbn [rowCount with_rowCountValue
    rowCountValue].
  destruct (rowCountValue q + 1 - 1 <? 0) eqn:H2; [lia|].
  destruct (rowCountValue q + 1 - 1 >? 100) eqn:H3; [lia|]. simpl.
  destruct q. unfold with_rowCountValue. simpl. f_equal. lia.
Qed.

Lemma addRow_removeRow_last_witness :
  removeRow 2 (addRow new) = new.
Proof.
  apply (addRow_removeRow_last new).
  - unfold wf, MaxRowCount. simpl. lia.
  - unfold MaxRowCount. simpl. lia.
  - reflexivity.
Defined.

(** *** Normalization *)

(** X5: as soon as one row is configured, [createNewValue] returns an
    array of exactly [rowCount] entries, whatever it is given. *)
Theorem createNewValue_has_rowCount_entries q curValue :
  1 <= rowCount q -> len (createNewValue q curValue) = rowCount q.
Proof. apply createNewValue_len. Qed.

Lemma createNewValue_has_rowCount_entries_witness :
  len (createNewValue Examples.three_answers
         (Some [Examples.ra; Examples.rb; Examples.rc])) = 2.
Proof.
  apply (createNewValue_has_rowCount_entries Examples.three_answers).
  simpl. lia.
Defined.

(** X6: an array that is not longer than the row count keeps all its
    entries, and the positions up to the row count are filled with empty
    objects. *)
Theorem createNewValue_keeps_short_input q (a : list RowValue) :
  len a <= rowCount q ->
  len (createNewValue q (Some a)) = rowCount q /\
  (forall i : nat, (i < length a)%nat ->
     createNewValue q (Some a) !! i = a !! i) /\
  (forall i : nat, len a <= Z.of_nat i < rowCount q ->
     createNewValue q (Some a) !! i = Some ∅).
Proof.
  intros Hle. rewrite createNewValue_pads by done. unfold len in *.
  split; [|split].
  - rewrite length_app, length_replicate. lia.
  - intros i Hi. by rewrite lookup_app_l.
  - intros i Hi. rewrite lookup_app_r by lia.
    apply lookup_replicate_2. lia.
Qed.

Lemma createNewValue_keeps_short_input_witness :
  createNewValue (with_rowCountValue 3 new) (Some [Examples.ra])
  !! 0%nat = Some Examples.ra /\
  createNewValue (with_rowCountValue 3 new) (Some [Examples.ra])
  !! 2%nat = Some ∅.
Proof.
  destruct (createNewValue_keeps_short_input (with_rowCountValue 3 new)
              [Examples.ra]) as (_ & Hkeep & Hpad).
  - unfold len. simpl. lia.
  - split.
    + apply (Hkeep 0%nat). simpl. lia.
    + apply (Hpad 2%nat). unfold len. simpl. lia.
Defined.

(** X7: whatever the length of the array, [createNewValue] leaves the
    entries at the positions below [rowCount - 1] as they are. *)
Theorem createNewValue_keeps_prefix q (a : list RowValue) (i : nat) :
  Z.of_nat i < rowCount q - 1 -> (i < length a)%nat ->
  createNewValue q (Some a) !! i = a !! i.
Proof.
  intros Hi Hlen. destruct (Z_le_gt_dec (len a) (rowCount q)) as [Hle|Hgt].
  - rewrite createNewValue_pads by done. by rewrite lookup_app_l.
  - rewrite createNewValue_cuts by lia. unfold len in *.
    rewrite lookup_app_l by (rewrite length_take_le; lia).
    apply lookup_take_lt. lia.
Qed.

Lemma createNewValue_keeps_prefix_witness :
  createNewValue Examples.three_answers
    (Some [Examples.ra; Examples.rb; Examples.rc]) !! 0%nat
  = Some Examples.ra.
Proof.
  apply (createNewValue_keeps_prefix Examples.three_answers
           [Examples.ra; Examples.rb; Examples.rc] 0).
  - simpl. lia.
  - simpl. lia.
Defined.

(** X8: with at least one row configured, normalizing an array that was
    normalized gives the same array. *)
Theorem createNewValue_idempotent q curValue :
  1 <= rowCount q ->
  createNewValue q (Some (createNewValue q curValue))
  = createNewValue q curValue.
Proof.
  intros Hrc. apply createNewValue_fixed. by apply createNewValue_len.
Qed.

Lemma createNewValue_idempotent_witness :
  createNewValue Examples.three_answers
    (Some (createNewValue Examples.three_answers
             (Some [Examples.ra; Examples.rb; Examples.rc])))
  = createNewValue Examples.three_answers
      (Some [Examples.ra; Examples.rb; Examples.rc]).
Proof.
  apply (createNewValue_idempotent Examples.three_answers).
  simpl. lia.
Defined.

(** *** Row removal *)

Lemma isEmptyValue_Forall (l : list RowValue) :
  isEmptyValue l = true <-> Forall (fun r => r = ∅) l.
Proof.
  induction l as [|r l IH]; simpl.
  - split; [by constructor|done].
  - destruct (0 <? size r)%nat eqn:Hsize.
    + split; [done|]. intros Hall. inversion Hall as [|? ? Hr _]; subst.
      rewrite map_size_empty in Hsize. done.
    + rewrite IH. split.
      * intros Hall. constructor; [|done].
        apply map_size_empty_iff. apply Nat.ltb_ge in Hsize. lia.
      * intros Hall. by inversion Hall.
Qed.

(** X9: [deleteRowValue] gives [null] exactly when every entry of the
    array is an object without keys (so also for the empty array), and
    gives back the array itself otherwise. *)
Theorem deleteRowValue_collapse (newValue : list RowValue) :
  (deleteRowValue newValue = None <-> Forall (fun r => r = ∅) newValue) /\
  (deleteRowValue newValue <> None -> deleteRowValue newValue = Some newValue).
Proof.
  unfold deleteRowValue. pose proof (isEmptyValue_Forall newValue) as Hiff.
  destruct (isEmptyValue newValue).
  - split; [|done]. split; [intros _; by apply Hiff|done].
  - split; [|done]. split; [done|]. intros Hall. apply Hiff in Hall. done.
Qed.

Lemma deleteRowValue_collapse_witness :
  deleteRowValue [∅; Examples.rb] = Some [∅; Examples.rb].
Proof.
  apply (deleteRowValue_collapse [∅; Examples.rb]).
  intros Hnone. vm_compute in Hnone. discriminate Hnone.
Defined.

Lemma splice_one_delete {A} (a : list A) (index : Z) :
  0 <= index < len a -> splice index 1 a = delete (Z.to_nat index) a.
Proof.
  intros [Hlo Hhi]. unfold splice, actualStart. unfold len in *.
  destruct (index <? 0) eqn:H0; [lia|].
  rewrite Z.min_l by lia. rewrite Z.max_l by lia. rewrite Z.min_l by lia.
  rewrite delete_take_drop. f_equal. f_equal. lia.
Qed.

(** X10: when a value is stored and the index is within the row count,
    [removeRow(index)] stores the normalized array without its entry at
    [index] (or [null] if only empty objects are left), lowers the row count
    by one and sends one value-changed notification. *)
Theorem removeRow_removes_entry q (a : list RowValue) index :
  wf q -> get_value q = Some a -> 0 <= index < rowCount q ->
  get_value (removeRow index q)
    = deleteRowValue
        (delete (Z.to_nat index) (createNewValue q (Some a))) /\
  rowCount (removeRow index q) = rowCount q - 1 /\
  rowCounter (removeRow index q) = rowCounter q /\
  valueChangedCount (removeRow index q) = S (valueChangedCount q).
Proof.
  intros [Hlo Hhi] Hv [Hi0 Hi1]. unfold MaxRowCount in Hhi.
  unfold removeRow. rewrite Hv.
  destruct (index <? 0) eqn:H0; [lia|].
  destruct (index >=? rowCount q) eqn:H1; [lia|]. cbn [orb].
  rewrite splice_one_delete
    by (rewrite createNewValue_len by lia; lia).
  unfold set_rowCount, MaxRowCount. cbn [rowCount set_value rowCountValue].
  unfold rowCount in *.
  destruct (rowCountValue q - 1 <? 0) eqn:H2; [lia|].
  destruct (rowCountValue q - 1 >? 100) eqn:H3; [lia|].
  by repeat split.
Qed.

Lemma removeRow_removes_entry_witness :
  get_value (removeRow 0 (with_questionValue
                            (Some [Examples.ra; Examples.rb]) new))
  = Some [Examples.rb].
Proof.
  destruct (removeRow_removes_entry
              (with_questionValue (Some [Examples.ra; Examples.rb]) new)
              [Examples.ra; Examples.rb] 0) as (Hv & _).
  - unfold wf, MaxRowCount. simpl. lia.
  - reflexivity.
  - simpl. lia.
  - rewrite Hv. reflexivity.
Defined.

(** *** Row generation *)

Lemma getRowValueByIndex_lookup (questionValue : list RowValue) index :
  0 <= index ->
  getRowValueByIndex questionValue index = questionValue !! Z.to_nat index.
Proof.
  intros Hlo. unfold getRowValueByIndex, len.
  destruct (index >=? 0) eqn:H0; [|lia].
  destruct (index <? Z.of_nat (length questionValue)) eqn:H1; cbn [andb].
  - done.
  - symmetry. apply lookup_ge_None. lia.
Qed.



(** X12: with at least one row configured, the row models of a
    [generateRows()] call carry, in order, the entries of the normalized
    value: no row has a [null] value. *)
Theorem generateRows_values q :
  1 <= rowCount q ->
  value <$> (generateRows q).1
  = Some <$> createNewValue q (get_value q).
Proof.
  intros Hrc. rewrite generateRows_rows by lia.
  pose proof (createNewValue_len q (get_value q) Hrc) as Hlen.
  set (val := createNewValue q (get_value q)) in *. unfold len in Hlen.
  apply list_eq. intros i. rewrite !list_lookup_fmap.
  destruct (decide (Z.of_nat i < rowCount q)) as [Hi|Hi].
  - rewrite lookup_seqZ_lt by lia. cbn [fmap option_fmap option_map value].
    rewrite getRowValueByIndex_lookup by lia.
    replace (Z.to_nat (0 + Z.of_nat i)) with i by lia.
    destruct (lookup_lt_is_Some_2 val i) as [x Hx]; [lia|].
    by rewrite Hx.
  - rewrite lookup_seqZ_ge by lia.
    rewrite (proj2 (lookup_ge_None val i)) by lia. done.
Qed.

Lemma generateRows_values_witness :
  value <$> (generateRows Examples.three_answers).1
  = [Some Examples.ra; Some ∅].
Proof.
  rewrite (generateRows_values Examples.three_answers).
  - reflexivity.
  - simpl. lia.
Defined.

Lemma generateRows_indices q :
  wf q ->
  index <$> (generateRows q).1 = seqZ (rowCounter q) (rowCount q).
Proof.
  intros [Hlo _]. destruct (Z.eq_dec (rowCount q) 0) as [H0|H0].
  - unfold generateRows. rewrite H0. by rewrite seqZ_nil.
  - rewrite generateRows_rows by done. rewrite <- list_fmap_compose.
    rewrite Z2Nat.id by lia.
    trans (Z.add (rowCounter q) <$> seqZ 0 (rowCount q)).
    + by apply list_fmap_ext.
    + rewrite fmap_add_seqZ. f_equal. lia.
Qed.

#[local] Instance rowName_of_index_inj :
  Inj (=) (=) (fun z : Z => String.append "row" (pretty z)).
Proof.
  intros x y Heq. apply (inj pretty). by apply (inj (String.app "row")).
Qed.

(** X13: the rows of two [generateRows()] calls in a row all have
    different stamps, and so different row names: a name given to a row is
    not given again. *)
Theorem generateRows_names_distinct q :
  wf q ->
  let rows1 := (generateRows q).1 in
  let rows2 := (generateRows (generateRows q).2).1 in
  NoDup (index <$> (rows1 ++ rows2)) /\
  NoDup (rowName <$> (rows1 ++ rows2)).
Proof.
  intros Hq. cbn zeta.
  assert (Hidx : NoDup (index <$>
            ((generateRows q).1 ++ (generateRows (generateRows q).2).1))).
  { rewrite fmap_app.
    rewrite generateRows_indices by done.
    rewrite generateRows_indices by (by apply wf_generateRows).
    rewrite rowCounter_generateRows by done.
    assert (Hrc : rowCount (generateRows q).2 = rowCount q).
    { destruct (Z.eq_dec (rowCount q) 0) as [H0|H0].
      - unfold generateRows. by rewrite H0.
      - rewrite generateRows_state by done. unfold normalized_in_place.
        by destruct (questionValue q). }
    rewrite Hrc. destruct Hq as [Hlo _].
    rewrite <- seqZ_app by lia. apply NoDup_seqZ. }
  split; [exact Hidx|].
  change rowName with
    ((fun z : Z => String.append "row" (pretty z)) ∘ index).
  rewrite list_fmap_compose. by apply (NoDup_fmap_2 _).
Qed.

Lemma generateRows_names_distinct_witness :
  NoDup (rowName <$> ((generateRows Examples.three_answers).1
                      ++ (generateRows
                            (generateRows Examples.three_answers).2).1)).
Proof.
  apply (generateRows_names_distinct Examples.three_answers).
  unfold wf, MaxRowCount. simpl. lia.
Defined.

(** X14: [generateRows()] sends no notification and keeps the row count;
    it advances the row counter by the row count; a value that is absent
    stays absent, and an array that is stored is left normalized in place
    (with at least one row configured). *)
Theorem generateRows_effect q :
  wf q ->
  let q' := (generateRows q).2 in
  rowCount q' = rowCount q /\
  rowCounter q' = rowCounter q + rowCount q /\
  valueChangedCount q' = valueChangedCount q /\
  (get_value q = None -> get_value q' = None) /\
  (forall a, get_value q = Some a -> 1 <= rowCount q ->
     get_value q' = Some (createNewValue q (Some a))).
Proof.
  intros Hq. cbn zeta. split; [|split; [by apply rowCounter_generateRows|]].
  - destruct (Z.eq_dec (rowCount q) 0) as [H0|H0].
    + unfold generateRows. by rewrite H0.
    + rewrite generateRows_state by done. unfold normalized_in_place.
      by destruct (questionValue q).
  - destruct (Z.eq_dec (rowCount q) 0) as [H0|H0].
    + unfold generateRows. rewrite H0. simpl.
      split; [done|]. split; [done|]. intros a _ Hrc. lia.
    + rewrite generateRows_state by done.
      unfold normalized_in_place, get_value.
      destruct (questionValue q) as [a'|] eqn:Hv; simpl.
      * split; [reflexivity|]. split; [intros [=]|].
        intros a Ha _. congruence.
      * split; [reflexivity|]. split; [by intros _|]. by intros a [=].
Qed.

Lemma generateRows_effect_witness :
  get_value (generateRows Examples.three_answers).2
  = Some [Examples.ra; ∅].
Proof.
  destruct (generateRows_effect Examples.three_answers)
    as (_ & _ & _ & _ & Hstored).
  - unfold wf, MaxRowCount. simpl. lia.
  - rewrite (Hstored [Examples.ra; Examples.rb; Examples.rc] eq_refl).
    + reflexivity.
    + simpl. lia.
Defined.

End MatrixDynamicExtra.

(** ** Further facts about the question *)

Module QuestionExtra.
Import Question QuestionMore QuestionFacts.

Local Ltac count_events :=
  repeat first
    [ rewrite occurrences_cons_eq
    | rewrite occurrences_cons_ne by discriminate
    | rewrite bool_decide_eq_true_2 by reflexivity
    | rewrite bool_decide_eq_false_2 by discriminate ].

Section Facts.
Context {V B HashTable : Type}.
Variable isValueEmpty : V -> bool.
Variable ValidatorRunner_run : V -> option SurveyError.
Variable ConditionRunner_run : string -> HashTable -> bool.
Variable super_runCondition : HashTable -> B -> B.
Variable isDisplayMode : Survey -> bool.
Implicit Types (q : t V B).

(** *** The value *)

Lemma value_setNewValue newValue q :
  isValueChangedInSurvey q = false ->
  value (setNewValue newValue q) = newValue.
Proof.
  intros Hs. unfold setNewValue, onValueChanged, setNewValueInData.
  rewrite Hs. unfold setValueCore, value, valueFromData, valueToData,
    getValueCore.
  destruct (data q) as [d|] eqn:Hd; cbn.
  - unfold provider_getValue, provider_setValue. by rewrite String.eqb_refl.
  - by rewrite Hd.
Qed.

(** X15: an assignment to [value] on a question without a value-changed
    handler returns, and the value read back is the value assigned. With a
    data provider attached the value goes to the provider and the
    question's own slot is left alone; without one it goes to the slot. *)
Theorem value_after_set_value fuel newValue q :
  (1 <= fuel)%nat ->
  valueChangedCallback q = None ->
  isValueChangedInSurvey q = false ->
  exists q',
    set_value fuel newValue q = Some q' /\
    value q' = newValue /\
    (data q = None -> data q' = None /\ questionValue q' = newValue) /\
    (data q <> None ->
       data q' <> None /\ questionValue q' = questionValue q).
Proof.
  intros Hfuel Hcb Hs. destruct fuel as [|fuel]; [lia|].
  rewrite set_value_S. unfold fire_valueChanged.
  destruct (setNewValue_frame newValue q) as (_ & Hcb' & _).
  cbn [valueChangedCallback with_isvalueChangedCallbackFiring].
  rewrite Hcb', Hcb.
  pose proof (value_setNewValue newValue q Hs) as Hv.
  assert (Hstore :
    (data q = None ->
       data (setNewValue newValue q) = None /\
       questionValue (setNewValue newValue q) = newValue) /\
    (data q <> None ->
       data (setNewValue newValue q) <> None /\
       questionValue (setNewValue newValue q) = questionValue q)).
  { unfold setNewValue, onValueChanged, setNewValueInData. rewrite Hs.
    unfold setValueCore, valueToData.
    destruct (data q) as [d|] eqn:Hd; cbn.
    - split; [intros [=]|]. intros _. split; [discriminate|reflexivity].
    - split; [intros _; by split|]. intros Hne. by destruct Hne. }
  destruct (isvalueChangedCallbackFiring (setNewValue newValue q));
    eexists; (split; [reflexivity|]); (split; [exact Hv|exact Hstore]).
Qed.

(** X16: a value that comes from the survey ([onSurveyValueChanged]) is
    not written back: on a question without a value-changed handler the
    provider, the slot and so the value read stay as they were, the
    comment-changed callback is fired once, and the flag that marks the
    survey as the origin is down again afterwards. *)
Theorem onSurveyValueChanged_not_written_back fuel newValue q :
  (1 <= fuel)%nat ->
  valueChangedCallback q = None ->
  exists q',
    onSurveyValueChanged (set_value fuel) newValue q = Some q' /\
    data q' = data q /\
    questionValue q' = questionValue q /\
    value q' = value q /\
    isValueChangedInSurvey q' = false /\
    count EvCommentChanged q' = S (count EvCommentChanged q) /\
    count EvValueChanged q' = count EvValueChanged q.
Proof.
  intros Hfuel Hcb. destruct fuel as [|fuel]; [lia|].
  unfold onSurveyValueChanged. rewrite set_value_S.
  unfold fire_valueChanged, setNewValue, onValueChanged, setNewValueInData.
  cbn [isValueChangedInSurvey with_isValueChangedInSurvey
       isvalueChangedCallbackFiring valueChangedCallback
       with_isvalueChangedCallbackFiring].
  rewrite Hcb. unfold count.
  destruct (isvalueChangedCallbackFiring q);
    (eexists; split; [reflexivity|]); cbn; count_events; by repeat split.
Qed.

(** *** The error check *)

Local Abbreviation upd es tr q := (with_trace tr (with_errors es q)).

Local Abbreviation found q :=
  (if hasRequiredError isValueEmpty q
   then [AnswerRequiredError (requiredErrorText q)]
   else
     match (if isEmpty isValueEmpty q then None
            else ValidatorRunner_run (value q)) with
     | Some e => [e]
     | None =>
         if hasSurvey q then
           match (fireSurveyValidation q).1 with
           | Some e => [e]
           | None => []
           end
         else []
     end).

Local Abbreviation check fireCallback q :=
  (checkForErrors isValueEmpty ValidatorRunner_run fireCallback q).

(** A check gives the question with a new error list and a longer trace;
    the errors-changed callback is fired when asked for and the number of
    errors changed or was not 0. *)
Lemma checkForErrors_callback_count fireCallback q :
  exists tr,
    check fireCallback q = upd (found q) tr q /\
    occurrences EvErrorsChanged tr =
      (count EvErrorsChanged q
       + if fireCallback
            && (negb (length (errors q) =? length (found q))%nat
                || (0 <? length (errors q))%nat)
         then 1 else 0)%nat.
Proof.
  unfold checkForErrors. cbv zeta.
  change (with_errors [] q) with (upd [] (trace q) q).
  rewrite onCheckForErrors_upd, checkForErrors_validators_upd.
  unfold count.
  destruct (hasRequiredError isValueEmpty q),
    (isEmpty isValueEmpty q),
    (ValidatorRunner_run (value q)) as [e|];
    unfold option_list; cbn [app length Nat.eqb andb negb option_rect];
    rewrite checkForErrors_survey_upd;
    destruct (hasSurvey q), ((fireSurveyValidation q).1) as [e'|];
    unfold option_list; cbn [app length Nat.eqb andb negb option_rect];
    rewrite checkForErrors_callback_upd;
    (eexists; split; [reflexivity|]);
    destruct (fireCallback && _); count_events; lia.
Qed.

(** The errors a check finds depend on nothing that a check, or
    [addError], changes. *)
Lemma fireSurveyValidation_upd es tr q :
  (fireSurveyValidation (upd es tr q)).1 = (fireSurveyValidation q).1.
Proof.
  unfold fireSurveyValidation.
  change (validateValueCallback (upd es tr q)) with (validateValueCallback q).
  change (survey (upd es tr q)) with (survey q).
  destruct (validateValueCallback q); [reflexivity|]. by destruct (survey q).
Qed.

Lemma found_upd es tr q : found (upd es tr q) = found q.
Proof. rewrite fireSurveyValidation_upd. reflexivity. Qed.

(** X17: the error list is built anew by every check: an error put in by
    [addError] is gone after the next [hasErrors()], which leaves the same
    errors and gives the same answer as if [addError] had not been
    called. *)
Theorem addError_dropped_by_check fireCallback error q :
  errors (check fireCallback (addError error q))
    = errors (check fireCallback q) /\
  (hasErrors isValueEmpty ValidatorRunner_run fireCallback
     (addError error q)).1
    = (hasErrors isValueEmpty ValidatorRunner_run fireCallback q).1 /\
  currentErrorCount (addError error q) = S (currentErrorCount q).
Proof.
  assert (Herrs : errors (check fireCallback (addError error q))
                  = errors (check fireCallback q)).
  { rewrite !checkForErrors_errors. apply found_upd. }
  split; [exact Herrs|]. split.
  - unfold hasErrors. cbn [fst]. by rewrite Herrs.
  - unfold currentErrorCount, addError. cbn. rewrite length_app. simpl. lia.
Qed.

(** X18: checking twice in a row changes nothing the second time: the
    same errors are left and [hasErrors()] gives the same answer. *)
Theorem hasErrors_twice fireCallback fireCallback' q :
  let r1 := hasErrors isValueEmpty ValidatorRunner_run fireCallback q in
  let r2 := hasErrors isValueEmpty ValidatorRunner_run fireCallback' r1.2 in
  errors r2.2 = errors r1.2 /\ r2.1 = r1.1.
Proof.
  cbn zeta. unfold hasErrors. cbn [fst snd].
  assert (Herrs : errors (check fireCallback' (check fireCallback q))
                  = errors (check fireCallback q)).
  { rewrite (checkForErrors_errors _ _ fireCallback').
    destruct (checkForErrors_upd isValueEmpty ValidatorRunner_run
                fireCallback q) as (tr & Heq & _).
    rewrite Heq. apply found_upd. }
  by rewrite Herrs.
Qed.

(** X19: [hasErrors(false)] never fires the errors-changed callback;
    [hasErrors(true)] fires it once when the number of errors changes or
    when there were errors before the check, and not otherwise: a question
    that had no error and has none is silent. *)
Theorem errorsChanged_fired fireCallback q :
  let q' := (hasErrors isValueEmpty ValidatorRunner_run fireCallback q).2 in
  count EvErrorsChanged q' =
    (count EvErrorsChanged q
     + if fireCallback
          && (negb (length (errors q) =? length (errors q'))%nat
              || (0 <? length (errors q))%nat)
       then 1 else 0)%nat.
Proof.
  cbn zeta. unfold hasErrors. cbn [snd].
  rewrite checkForErrors_errors.
  destruct (checkForErrors_callback_count fireCallback q) as (tr & -> & <-).
  reflexivity.
Qed.

(** X20: an empty value is never handed to the validators; and a question
    that is not required, has an empty value and belongs to no survey has
    no errors. *)
Theorem empty_value_skips_validators fireCallback q :
  isEmpty isValueEmpty q = true ->
  let r := hasErrors isValueEmpty ValidatorRunner_run fireCallback q in
  count EvRunValidators r.2 = count EvRunValidators q /\
  (isRequired q = false -> survey q = None ->
   r.1 = false /\ errors r.2 = []).
Proof.
  intros Hempty. cbn zeta. unfold hasErrors. cbn [fst snd].
  rewrite checkForErrors_errors, checkForErrors_validators_count.
  unfold hasRequiredError, hasSurvey. rewrite Hempty. split.
  - rewrite andb_false_r. lia.
  - intros -> ->. by cbn.
Qed.

(** X21: on a question that belongs to no survey the survey-level
    validation is not invoked, so that a [validateValueCallback] that is
    set is not called either: the errors are the required error or else
    the validators' error. *)
Theorem no_survey_no_survey_validation fireCallback q :
  survey q = None ->
  let q' := (hasErrors isValueEmpty ValidatorRunner_run fireCallback q).2 in
  count EvSurveyValidation q' = count EvSurveyValidation q /\
  errors q' =
    if hasRequiredError isValueEmpty q
    then [AnswerRequiredError (requiredErrorText q)]
    else option_list (if isEmpty isValueEmpty q then None
                      else ValidatorRunner_run (value q)).
Proof.
  intros Hsurvey. cbn zeta. unfold hasErrors. cbn [snd].
  rewrite checkForErrors_errors, checkForErrors_survey_count.
  unfold hasSurvey. rewrite Hsurvey. cbn [andb]. split; [lia|].
  destruct (hasRequiredError isValueEmpty q); [done|].
  by destruct (if isEmpty isValueEmpty q then None
               else ValidatorRunner_run (value q)).
Qed.

(** *** The enabling condition *)

Local Abbreviation runCond values q :=
  (runCondition ConditionRunner_run super_runCondition values q).

(** X22: [runCondition] fires the read-only-changed callback exactly when
    it changes [readOnly]: once if the flag is flipped, not at all if it
    keeps its value. *)
Theorem runCondition_notifies_on_change values q :
  count EvReadOnlyChanged (runCond values q) =
    (count EvReadOnlyChanged q
     + if Bool.eqb (readOnly (runCond values q)) (readOnly q)
       then 0 else 1)%nat.
Proof.
  destruct (String.eqb_spec (enableIf q) "") as [Hen|Hen].
  - rewrite runCondition_empty by done. cbn.
    rewrite Bool.eqb_reflx. unfold count. cbn. lia.
  - unfold runCondition. cbn.
    destruct (String.eqb_spec (enableIf q) "") as [|_]; [done|].
    unfold set_readOnly, readOnly, onReadOnlyChanged, run, set_expression,
      new_ConditionRunner, count, log.
    destruct q as [n b d s vc h v req ro txt en cr errs f1 f2 tr]. cbn.
    destruct cr as [r|], ro; cbn;
      destruct (ConditionRunner_run en values); cbn;
      repeat first
        [ rewrite bool_decide_eq_true_2 by reflexivity
        | rewrite bool_decide_eq_false_2 by discriminate ];
      lia.
Qed.

(** A question whose runner holds the current [enableIf] and whose
    [readOnly] already is what the condition gives is left alone by
    [runCondition], but for what the base class does. *)
Lemma runCondition_settled values q :
  enableIf q <> "" ->
  conditionEnabelRunner q = Some {| expression := enableIf q |} ->
  readOnly q = negb (ConditionRunner_run (enableIf q) values) ->
  runCond values q = with_base (super_runCondition values (base q)) q.
Proof.
  intros Hen Hr Hro. unfold runCondition. cbn.
  destruct (String.eqb_spec (enableIf q) "") as [|_]; [done|].
  rewrite Hr. unfold set_readOnly, readOnly, run, set_expression in *.
  cbn. rewrite Hro, Bool.eqb_reflx.
  destruct q as [n b d s vc h v req ro txt en cr errs f1 f2 tr].
  cbn in *. by subst.
Qed.

(** X23: evaluating the condition again against the same values changes
    nothing but what the base class changes: [readOnly] and the runner stay,
    and no callback is fired. *)
Theorem runCondition_again values q :
  runCond values (runCond values q)
  = with_base (super_runCondition values (base (runCond values q)))
      (runCond values q).
Proof.
  destruct (String.eqb_spec (enableIf q) "") as [Hen|Hen].
  - rewrite (runCondition_empty _ _ values q) by done.
    by rewrite runCondition_empty.
  - destruct (runCondition_nonempty ConditionRunner_run super_runCondition
                values q Hen) as (Hro & Hr & Hen' & _).
    apply runCondition_settled; rewrite Hen'; done.
Qed.

(** X24: after [runCondition] with an [enableIf] that does not hold, the
    question is read-only whatever the mode of the survey; with one that
    holds, it is read-only exactly when the survey is in display mode. *)
Theorem isReadOnly_after_runCondition values q :
  enableIf q <> "" ->
  isReadOnly isDisplayMode (runCond values q) =
    if ConditionRunner_run (enableIf q) values
    then match survey q with
         | Some s => isDisplayMode s
         | None => false
         end
    else true.
Proof.
  intros Hen.
  destruct (runCondition_nonempty ConditionRunner_run super_runCondition
              values q Hen) as (Hro & _).
  unfold isReadOnly. rewrite Hro.
  assert (Hsurvey : survey (runCond values q) = survey q).
  { unfold runCondition. cbn.
    destruct (String.eqb_spec (enableIf q) "") as [|_]; [done|].
    unfold set_readOnly, onReadOnlyChanged.
    destruct (conditionEnabelRunner _), (Bool.eqb _ _); reflexivity. }
  rewrite Hsurvey. by destruct (ConditionRunner_run (enableIf q) values).
Qed.

(** *** Required, comment, other *)

Variable supportComment : bool.
Variable supportOther : bool.
Implicit Types (x : Ext V B).

(** X25: making a question with an empty value required makes the next
    check fail with the required error and nothing else; making it not
    required again, with no survey attached, makes the next check pass. The
    title-changed callback is fired only when [isRequired] changes. *)
Theorem set_isRequired_then_check fireCallback x :
  isEmpty isValueEmpty (question x) = true ->
  let yes := question (set_isRequired true x) in
  let no := question (set_isRequired false x) in
  (hasErrors isValueEmpty ValidatorRunner_run fireCallback yes).1 = true /\
  errors (hasErrors isValueEmpty ValidatorRunner_run fireCallback yes).2
    = [AnswerRequiredError (requiredErrorText (question x))] /\
  (survey (question x) = None ->
   (hasErrors isValueEmpty ValidatorRunner_run fireCallback no).1 = false) /\
  titleChangedCount (set_isRequired true x) =
    (titleChangedCount x
     + if isRequired (question x) then 0 else 1)%nat.
Proof.
  intros Hempty. cbn zeta. unfold hasErrors. cbn [fst snd].
  rewrite !checkForErrors_errors.
  unfold set_isRequired, hasRequiredError, hasSurvey, isRequired in *.
  unfold isEmpty in *.
  destruct (isRequiredValue (question x)) eqn:Hreq; cbn;
    change (value (with_isRequiredValue false (question x)))
      with (value (question x));
    change (value (with_isRequiredValue true (question x)))
      with (value (question x));
    rewrite ?Hreq, ?Hempty; cbn;
    (split; [reflexivity|]); (split; [reflexivity|]);
    (split; [by intros ->|lia]).
Qed.

(** X26: after an assignment to [comment] the comment read back is the
    text assigned, and the value of the question is untouched. The
    comment-changed callback is fired once, unless the text assigned is the
    comment the question already has, in which case nothing happens. *)
Theorem set_comment_then_get newValue x :
  let x' := set_comment newValue x in
  comment x' = Some newValue /\
  value (question x') = value (question x) /\
  count EvCommentChanged (question x') =
    (count EvCommentChanged (question x)
     + match comment x with
       | Some c => if String.eqb c newValue then 0 else 1
       | None => 1
       end)%nat /\
  (comment x = Some newValue -> x' = x).
Proof.
  cbn zeta. unfold set_comment, setComment, setNewComment, comment,
    getComment, count.
  destruct x as [q c pc hc ho tc oc]. cbn.
  destruct (data q) as [d|] eqn:Hd; cbn;
    [ destruct (String.eqb_spec (pc (name q)) newValue) as [Heq|Hne]
    | destruct c as [c|];
      [ destruct (String.eqb_spec c newValue) as [Heq|Hne] | ] ];
    cbn; rewrite ?Hd; cbn; rewrite ?String.eqb_refl; count_events;
    repeat split;
    try first
      [ done
      | lia
      | by rewrite Heq
      | by intros [= ?] ].
Qed.

(** The two flags are never both up, and a flag is up only if the class
    supports it. *)
Local Abbreviation flags_ok x :=
  (hasComment x && hasOther x = false /\
   (hasComment x = true -> supportComment = true) /\
   (hasOther x = true -> supportOther = true)).

(** X27: [hasComment] and [hasOther] exclude each other: an assignment to
    either returns (a call depth of two is enough), takes effect if the
    class supports the flag and changes nothing if it does not, and never
    leaves both flags up. *)
Theorem hasComment_hasOther_exclusive fuel val x :
  (2 <= fuel)%nat -> flags_ok x ->
  (exists x',
     set_hasComment supportComment supportOther fuel val x = Some x' /\
     flags_ok x' /\
     (supportComment = true -> hasComment x' = val) /\
     (supportComment = false -> x' = x)) /\
  (exists x',
     set_hasOther supportComment supportOther fuel val x = Some x' /\
     flags_ok x' /\
     (supportOther = true -> hasOther x' = val) /\
     (supportOther = false -> x' = x)).
Proof.
  intros Hfuel (Hex & Hc & Ho). destruct fuel as [|[|fuel]]; [lia|lia|].
  destruct x as [q c pc hc ho tc oc]. unfold hasComment, hasOther in *.
  cbn in Hex, Hc, Ho.
  destruct supportComment, supportOther, val, hc, ho;
    try discriminate Hex;
    try (specialize (Hc eq_refl); discriminate Hc);
    try (specialize (Ho eq_refl); discriminate Ho);
    (split; eexists; (split; [reflexivity|]); cbn;
     repeat split; intros; congruence).
Qed.

(** X28: [getProcessedTextValue] gives a text exactly for the names that
    [canProcessedTextValues] accepts, and [null] for every other name. *)
Theorem processed_text_names no processedTitle requiredText name :
  is_Some (getProcessedTextValue no processedTitle requiredText name)
  <-> canProcessedTextValues name = true.
Proof.
  unfold getProcessedTextValue, canProcessedTextValues.
  destruct (String.eqb name "no"), (String.eqb name "title"),
    (String.eqb name "require"); cbn; split; try done; try by eexists.
  all: by intros [? ?].
Qed.

End Facts.

(** *** The further facts at the sample questions *)

Lemma value_after_set_value_witness :
  exists q',
    set_value 1 (Some 7) (MoreExamples.plain true None false "") = Some q' /\
    value q' = Some 7 /\
    questionValue q' = None.
Proof.
  destruct (value_after_set_value 1 (Some 7)
              (MoreExamples.plain true None false ""))
    as (q' & Hrun & Hv & _ & Hprov); [lia|reflexivity|reflexivity|].
  exists q'. split; [exact Hrun|]. split; [exact Hv|].
  destruct Hprov as (_ & Hslot); [discriminate|]. exact Hslot.
Defined.

Lemma onSurveyValueChanged_not_written_back_witness :
  exists q',
    onSurveyValueChanged (set_value 1) (Some 7)
      (MoreExamples.plain false (Some 3) false "") = Some q' /\
    value q' = Some 3.
Proof.
  destruct (onSurveyValueChanged_not_written_back 1 (Some 7)
              (MoreExamples.plain false (Some 3) false ""))
    as (q' & Hrun & _ & _ & Hv & _); [lia|reflexivity|].
  exists q'. split; [exact Hrun|exact Hv].
Defined.

Lemma empty_value_skips_validators_witness :
  (hasErrors Examples.isValueEmpty Examples.adult true
     (MoreExamples.plain false None false "")).1 = false.
Proof.
  destruct (empty_value_skips_validators Examples.isValueEmpty
              Examples.adult true (MoreExamples.plain false None false "")
              eq_refl) as (_ & Hnone).
  destruct (Hnone eq_refl eq_refl) as (Hres & _). exact Hres.
Defined.

Lemma no_survey_no_survey_validation_witness :
  errors (hasErrors Examples.isValueEmpty Examples.adult true
            (MoreExamples.with_callback (Some 30))).2 = [].
Proof.
  destruct (no_survey_no_survey_validation Examples.isValueEmpty
              Examples.adult true (MoreExamples.with_callback (Some 30))
              eq_refl) as (_ & Herrs).
  exact Herrs.
Defined.

Lemma isReadOnly_after_runCondition_witness :
  isReadOnly MoreExamples.always_display
    (runCondition Examples.holds (fun _ b => b) tt
       (MoreExamples.plain false None false "no")) = true /\
  isReadOnly MoreExamples.always_display
    (runCondition Examples.holds (fun _ b => b) tt
       (MoreExamples.plain false None false "yes")) = false.
Proof.
  split.
  - rewrite (isReadOnly_after_runCondition Examples.holds (fun _ b => b)
               MoreExamples.always_display tt
               (MoreExamples.plain false None false "no")).
    + reflexivity.
    + discriminate.
  - rewrite (isReadOnly_after_runCondition Examples.holds (fun _ b => b)
               MoreExamples.always_display tt
               (MoreExamples.plain false None false "yes")).
    + reflexivity.
    + discriminate.
Defined.

Lemma set_isRequired_then_check_witness :
  (hasErrors Examples.isValueEmpty Examples.adult true
     (question (set_isRequired true (MoreExamples.fresh false None)))).1
  = true /\
  (hasErrors Examples.isValueEmpty Examples.adult true
     (question (set_isRequired false (MoreExamples.fresh false None)))).1
  = false.
Proof.
  destruct (set_isRequired_then_check Examples.isValueEmpty Examples.adult
              true (MoreExamples.fresh false None) eq_refl)
    as (Hyes & _ & Hno & _).
  split; [exact Hyes|exact (Hno eq_refl)].
Defined.

Lemma hasComment_hasOther_exclusive_witness :
  exists x',
    set_hasOther true true 2 true
      (with_hasCommentValue true (MoreExamples.fresh false None)) = Some x' /\
    hasOther x' = true /\ hasComment x' = false.
Proof.
  destruct (hasComment_hasOther_exclusive true true 2 true
              (with_hasCommentValue true (MoreExamples.fresh false None)))
    as (_ & x' & Hrun & (Hex & _) & Hval & _).
  - lia.
  - repeat split.
  - exists x'. split; [exact Hrun|]. specialize (Hval eq_refl).
    split; [exact Hval|]. rewrite Hval in Hex.
    by destruct (hasComment x').
Defined.

Lemma set_comment_then_get_witness :
  comment (set_comment "none" (MoreExamples.fresh false (Some 3)))
  = Some "none"%string /\
  set_comment "none"
    (set_comment "none" (MoreExamples.fresh false (Some 3)))
  = set_comment "none" (MoreExamples.fresh false (Some 3)).
Proof.
  destruct (set_comment_then_get "none" (MoreExamples.fresh false (Some 3)))
    as (Hget & _).
  destruct (set_comment_then_get "none"
              (set_comment "none" (MoreExamples.fresh false (Some 3))))
    as (_ & _ & _ & Hsame).
  split; [exact Hget|]. apply Hsame. exact Hget.
Defined.

Lemma processed_text_names_witness :
  is_Some (getProcessedTextValue "1" "Age" "*" "title") /\
  ~ is_Some (getProcessedTextValue "1" "Age" "*" "Title").
Proof.
  split.
  - apply (processed_text_names "1" "Age" "*" "title"). reflexivity.
  - intros Hsome.
    apply (processed_text_names "1" "Age" "*" "Title") in Hsome.
    discriminate Hsome.
Defined.

End QuestionExtra.
